(** * Verification of the Drive classifier API server ([api_server.py])

    A shallow embedding of the report aggregator [_generate_markdown_report]
    and of the three endpoints [list_documents], [get_status] and
    [get_report], followed by the properties of the specification.

    Conventions of the embedding:
    - a Python [str] is a [string]; each character stands for one code point
      below 256;
    - a Python [int] is a [Z]; the built-ins follow CPython 3.11 and later,
      with the limit on the digits of an integer literal at its default;
    - a Python [dict] with [str] keys is an association list in insertion
      order, without repeated keys;
    - a raised exception is the [Raise] branch of [result], with the text of
      [str(e)];
    - the clock, the token file and the Drive client are parameters of the
      endpoints, and the searches sent to the Drive client are logged;
    - floating-point numbers are outside the model. *)

From Stdlib Require Import String Ascii List ZArith Lia Bool Arith Permutation.
From Stdlib Require Import DecimalString DecimalPos.
Import ListNotations.

Open Scope list_scope.
Open Scope string_scope.
Open Scope Z_scope.

(** ** Results and exceptions *)

Inductive result (E A : Type) : Type :=
| Ok (a : A)
| Raise (e : E).

Arguments Ok {E A} a.
Arguments Raise {E A} e.

Definition bind {E A B} (m : result E A) (k : A -> result E B) : result E B :=
  match m with
  | Ok a => k a
  | Raise e => Raise e
  end.

Declare Scope py_scope.
Delimit Scope py_scope with py.
Notation "x <- m ;; k" := (bind m (fun x => k))
  (at level 61, m at next level, right associativity) : py_scope.
Open Scope py_scope.

(** Exception classes raised by the built-ins that the server uses, and
    [OtherError] for the classes of the Drive client and of the file system. *)
Inductive exc_class : Type :=
| ValueError
| TypeError
| AttributeError
| KeyError
| OtherError (name : string).

(** An instance of [Exception]: its class and the text of [str(e)]. *)
Record exception : Type := Exc { exc_cls : exc_class; exc_str : string }.

Definition py A := result exception A.

(** ** Python values

    The values a decoded JSON document is made of. *)

#[local] Set Warnings "-register-all".

Inductive value : Type :=
| VNone
| VBool (b : bool)
| VInt (z : Z)
| VStr (s : string)
| VList (l : list value)
| VDict (d : list (string * value)).

Definition type_name (v : value) : string :=
  match v with
  | VNone => "NoneType"
  | VBool _ => "bool"
  | VInt _ => "int"
  | VStr _ => "str"
  | VList _ => "list"
  | VDict _ => "dict"
  end.

(** ** Strings *)

Definition nl : string := String "010"%char "".

(** The double quote. *)
Definition dquote : ascii := "034"%char.

(** [s.split(sep)] for a separator of one character. *)
Fixpoint split (sep : ascii) (s : string) : list string :=
  match s with
  | "" => [""]
  | String c s' =>
      if Ascii.eqb c sep then "" :: split sep s'
      else match split sep s' with
           | tok :: toks => String c tok :: toks
           | [] => [String c ""]
           end
  end.

(** [obj.split(',')] on a value of any type. *)
Definition py_split (obj : value) (sep : ascii) : py (list string) :=
  match obj with
  | VStr s => Ok (split sep s)
  | _ => Raise (Exc AttributeError
                  ("'" ++ type_name obj ++ "' object has no attribute 'split'"))
  end.

(** [sep.join(parts)] *)
Fixpoint join (sep : string) (parts : list string) : string :=
  match parts with
  | [] => ""
  | [p] => p
  | p :: ps => p ++ sep ++ join sep ps
  end.

(** Truth value of a [str]. *)
Definition truthy (s : string) : bool :=
  match s with
  | "" => false
  | _ => true
  end.

(** [str(n)] for an [int]. *)
Definition str_of_int (z : Z) : string := NilZero.string_of_int (Z.to_int z).

(** Hexadecimal digits of a code point below 256, as [repr] prints them. *)
Definition hex_digit (n : N) : ascii :=
  match n with
  | 0 => "0" | 1 => "1" | 2 => "2" | 3 => "3" | 4 => "4" | 5 => "5"
  | 6 => "6" | 7 => "7" | 8 => "8" | 9 => "9" | 10 => "a" | 11 => "b"
  | 12 => "c" | 13 => "d" | 14 => "e" | _ => "f"
  end%N%char.

Definition hex2 (n : N) : string :=
  String (hex_digit (n / 16)) (String (hex_digit (n mod 16)) "").

(** Code points below 256 that [repr] prints as they are. *)
Definition is_printable (c : ascii) : bool :=
  let n := N_of_ascii c in
  ((32 <=? n) && (n <? 127) || (161 <=? n) && negb (n =? 173))%N.

Fixpoint contains (c : ascii) (s : string) : bool :=
  match s with
  | "" => false
  | String c' s' => Ascii.eqb c' c || contains c s'
  end.

Fixpoint repr_body (quote : ascii) (s : string) : string :=
  match s with
  | "" => ""
  | String c s' =>
      (if Ascii.eqb c quote || Ascii.eqb c "\"%char then String "\" (String c "")
       else if Ascii.eqb c "009" then "\t"
       else if Ascii.eqb c "010" then "\n"
       else if Ascii.eqb c "013" then "\r"
       else if is_printable c then String c ""
       else "\x" ++ hex2 (N_of_ascii c))
      ++ repr_body quote s'
  end.

(** [repr(s)] for a [str]. *)
Definition repr (s : string) : string :=
  let quote : ascii :=
    if contains "'" s && negb (contains dquote s) then dquote else "'"%char in
  String quote (repr_body quote s ++ String quote "").

(** ** Dictionaries *)

Definition dict (V : Type) := list (string * V).

Fixpoint dict_lookup {V} (d : dict V) (k : string) : option V :=
  match d with
  | [] => None
  | (k', v) :: d' => if String.eqb k' k then Some v else dict_lookup d' k
  end.

(** [d.get(k, default)] *)
Definition dict_get {V} (d : dict V) (k : string) (default : V) : V :=
  match dict_lookup d k with
  | Some v => v
  | None => default
  end.

(** [d[k] = v]: an existing key keeps its position, a new key goes last. *)
Fixpoint dict_set {V} (d : dict V) (k : string) (v : V) : dict V :=
  match d with
  | [] => [(k, v)]
  | (k', v') :: d' =>
      if String.eqb k' k then (k', v) :: d' else (k', v') :: dict_set d' k v
  end.

(** [d[k]] *)
Definition dict_getitem {V} (d : dict V) (k : string) : py V :=
  match dict_lookup d k with
  | Some v => Ok v
  | None => Raise (Exc KeyError (repr k))
  end.

(** [obj.get(k, default)] on a value of any type. *)
Definition py_get (obj : value) (k : string) (default : value) : py value :=
  match obj with
  | VDict d => Ok (dict_get d k default)
  | _ => Raise (Exc AttributeError
                  ("'" ++ type_name obj ++ "' object has no attribute 'get'"))
  end.

(** ** The built-in [int] *)

(** Characters that [int] skips around the literal: the white space of
    ASCII (tab to carriage return, and the space) and, above it, the next-line
    and the no-break space. *)
Definition is_space (c : ascii) : bool :=
  let n := N_of_ascii c in
  ((9 <=? n) && (n <=? 13) || (n =? 32) || (n =? 133) || (n =? 160))%N.

Definition digit_val (c : ascii) : option Z :=
  let n := N_of_ascii c in
  if ((48 <=? n) && (n <=? 57))%N then Some (Z.of_N n - 48) else None.

Fixpoint lstrip (s : string) : string :=
  match s with
  | String c s' => if is_space c then lstrip s' else s
  | "" => ""
  end.

Fixpoint all_space (s : string) : bool :=
  match s with
  | String c s' => is_space c && all_space s'
  | "" => true
  end.

(** The digits of a literal, with single underscores between them.  The
    result is the value read, the number of digits, whether the last character
    read was an underscore, and the rest of the text; [None] when two
    underscores follow each other. *)
Fixpoint scan_digits (prev_underscore : bool) (acc : Z) (digits : nat)
    (s : string) : option (Z * nat * bool * string) :=
  match s with
  | "" => Some (acc, digits, prev_underscore, "")
  | String c s' =>
      if Ascii.eqb c "_" then
        if prev_underscore then None else scan_digits true acc digits s'
      else
        match digit_val c with
        | Some d => scan_digits false (10 * acc + d) (S digits) s'
        | None => Some (acc, digits, prev_underscore, s)
        end
  end.

(** The interpreter's limit on the digits of a literal
    ([sys.get_int_max_str_digits()], 0 for none), at its default. *)
Definition int_max_str_digits : nat := 4300.

Definition invalid_literal (s : string) : exception :=
  Exc ValueError
    ("invalid literal for int() with base 10: " ++ substring 0 200 (repr s)).

Definition too_many_digits (digits : nat) : exception :=
  Exc ValueError
    ("Exceeds the limit (" ++ str_of_int (Z.of_nat int_max_str_digits)
     ++ " digits) for integer string conversion: value has "
     ++ str_of_int (Z.of_nat digits)
     ++ " digits; use sys.set_int_max_str_digits() to increase the limit").

Definition starts_with (c : ascii) (s : string) : bool :=
  match s with
  | String c' _ => Ascii.eqb c' c
  | "" => false
  end.

Definition tail (s : string) : string :=
  match s with
  | String _ s' => s'
  | "" => ""
  end.

(** [int(s)] for a [str], in base 10. *)
Definition int_of_str (s : string) : py Z :=
  let s1 := lstrip s in
  let negative := starts_with "-" s1 in
  let s2 := if starts_with "+" s1 || negative then tail s1 else s1 in
  if starts_with "_" s2 then Raise (invalid_literal s)
  else
    match scan_digits false 0 0 s2 with
    | None => Raise (invalid_literal s)
    | Some (acc, digits, prev_underscore, rest) =>
        if prev_underscore then Raise (invalid_literal s)
        else if (640 <? digits)%nat && (0 <? int_max_str_digits)%nat
                && (int_max_str_digits <? digits)%nat
        then Raise (too_many_digits digits)
        else if (digits =? 0)%nat then Raise (invalid_literal s)
        else if all_space rest then Ok (if negative then - acc else acc)
        else Raise (invalid_literal s)
    end.

(** [int(v)] *)
Definition py_int (v : value) : py Z :=
  match v with
  | VInt z => Ok z
  | VBool b => Ok (if b then 1 else 0)
  | VStr s => int_of_str s
  | _ => Raise (Exc TypeError
                  ("int() argument must be a string, a bytes-like object or a real number, not '"
                   ++ type_name v ++ "'"))
  end.

(** [len(l)] *)
Definition len {A} (l : list A) : Z := Z.of_nat (length l).

(** ** The report aggregator

    [_generate_markdown_report], lines 174-209 of [api_server.py]. *)

(** A file resource of the Drive API, as decoded from its JSON object. *)
Definition file := dict value.

(** The two tallies of the aggregation loop. *)
Record tally : Type := Tally {
  categories : dict Z;
  confidence_levels : dict Z
}.

(** Lines 184-185. *)
Definition empty_tally : tally :=
  {| categories := [];
     confidence_levels := [("HIGH", 0); ("MEDIUM", 0); ("LOW", 0)] |}.

(** Lines 190-191, the body of the loop over the tokens of one record. *)
Definition count_category (categories : dict Z) (cat : string) : dict Z :=
  if truthy cat then dict_set categories cat (dict_get categories cat 0 + 1)
  else categories.

(** [d[k] += 1] *)
Definition dict_incr (d : dict Z) (k : string) : py (dict Z) :=
  v <- dict_getitem d k ;;
  Ok (dict_set d k (v + 1)).

(** Lines 194-199, the choice of the bucket. *)
Definition level_of (confidence : Z) : string :=
  if confidence >=? 90 then "HIGH"
  else if confidence >=? 70 then "MEDIUM"
  else "LOW".

(** Lines 188-199, the body of the loop over the records. *)
Definition tally_file (t : tally) (f : file) : py tally :=
  let props := dict_get f "properties" (VDict []) in
  cats <- py_get props "categories" (VStr "") ;;
  tokens <- py_split cats "," ;;
  let categories := fold_left count_category tokens (categories t) in
  conf <- py_get props "overall_confidence" (VInt 0) ;;
  confidence <- py_int conf ;;
  confidence_levels <- dict_incr (confidence_levels t) (level_of confidence) ;;
  Ok {| categories := categories; confidence_levels := confidence_levels |}.

(** Lines 187-199, the loop over the records. *)
Fixpoint tally_files (t : tally) (files : list file) : py tally :=
  match files with
  | [] => Ok t
  | f :: files' => t' <- tally_file t f ;; tally_files t' files'
  end.

(** One line of a tally, [f"- {key}: {count}"]. *)
Definition tally_line (kc : string * Z) : string :=
  "- " ++ fst kc ++ ": " ++ str_of_int (snd kc).

(** [now] is the text of [datetime.now().isoformat()] read at line 178. *)
Definition _generate_markdown_report (now : string) (files : list file)
  : py string :=
  let report_parts :=
    [ "# Document Classification Report";
      nl ++ "Generated: " ++ now;
      nl ++ "Total Documents: " ++ str_of_int (len files);
      nl ++ "## Summary" ] in
  t <- tally_files empty_tally files ;;
  let report_parts :=
    (report_parts
     ++ [(nl ++ "### Categories")%string]
     ++ map tally_line (categories t)
     ++ [(nl ++ "### Confidence Levels")%string]
     ++ map tally_line (confidence_levels t))%list in
  Ok (join nl report_parts).

(** ** JSON text

    [json.dumps(obj, indent=2)]: items on lines of their own, two spaces per
    level, [","] between items and [": "] after a key, text in ASCII. *)

(** One character of a string, as [json.dumps] writes it. *)
Definition escape_char (c : ascii) : string :=
  if Ascii.eqb c dquote then String "\" (String dquote "")
  else if Ascii.eqb c "\" then "\\"
  else if Ascii.eqb c "010" then "\n"
  else if Ascii.eqb c "013" then "\r"
  else if Ascii.eqb c "009" then "\t"
  else if Ascii.eqb c "008" then "\b"
  else if Ascii.eqb c "012" then "\f"
  else if ((32 <=? N_of_ascii c) && (N_of_ascii c <? 127))%N then String c ""
  else "\u00" ++ hex2 (N_of_ascii c).

Fixpoint json_escape (s : string) : string :=
  match s with
  | "" => ""
  | String c s' => escape_char c ++ json_escape s'
  end.

Definition json_string (s : string) : string :=
  String dquote (json_escape s ++ String dquote "").

Fixpoint spaces (n : nat) : string :=
  match n with
  | O => ""
  | S n' => " " ++ spaces n'
  end.

Definition newline_indent (indent level : nat) : string :=
  nl ++ spaces (indent * level).

(** What stands between two items of a container at [level]. *)
Definition separator (indent level : nat) : string :=
  "," ++ newline_indent indent level.

Fixpoint json_encode (indent level : nat) (v : value) : string :=
  match v with
  | VNone => "null"
  | VBool true => "true"
  | VBool false => "false"
  | VInt z => str_of_int z
  | VStr s => json_string s
  | VList [] => "[]"
  | VList l =>
      "[" ++ newline_indent indent (S level)
      ++ join (separator indent (S level))
           (map (json_encode indent (S level)) l)
      ++ newline_indent indent level ++ "]"
  | VDict [] => "{}"
  | VDict d =>
      "{" ++ newline_indent indent (S level)
      ++ join (separator indent (S level))
           (map (fun kv => json_string (fst kv) ++ ": "
                           ++ json_encode indent (S level) (snd kv)) d)
      ++ newline_indent indent level ++ "}"
  end.

(** [json.dumps(files, indent=2)] for a list of file resources. *)
Definition json_dumps (indent : nat) (files : list file) : string :=
  json_encode indent 0 (VList (map VDict files)).

(** ** Decoding JSON text

    [json.loads(s)], with the scanner of [json.decoder].  The result is [None]
    when [json.loads] raises, and for the texts outside the model: numbers
    with a fraction or an exponent, [NaN] and the infinities, and escapes of
    code points from 256 on. *)

Definition is_ws (c : ascii) : bool :=
  Ascii.eqb c " " || Ascii.eqb c "009" || Ascii.eqb c "010" || Ascii.eqb c "013".

Fixpoint skip_ws (s : string) : string :=
  match s with
  | String c s' => if is_ws c then skip_ws s' else s
  | "" => ""
  end.

Definition hex_val (c : ascii) : option N :=
  let n := N_of_ascii c in
  (if (48 <=? n) && (n <=? 57) then Some (n - 48)
   else if (97 <=? n) && (n <=? 102) then Some (n - 87)
   else if (65 <=? n) && (n <=? 70) then Some (n - 55)
   else None)%N.

(** The character that follows a backslash, other than [u]. *)
Definition unescape (c : ascii) : option ascii :=
  if Ascii.eqb c dquote then Some dquote
  else if Ascii.eqb c "\" then Some "\"%char
  else if Ascii.eqb c "/" then Some "/"%char
  else if Ascii.eqb c "b" then Some "008"%char
  else if Ascii.eqb c "f" then Some "012"%char
  else if Ascii.eqb c "n" then Some "010"%char
  else if Ascii.eqb c "r" then Some "013"%char
  else if Ascii.eqb c "t" then Some "009"%char
  else None.

(** [scanstring], from the character after the opening quote: the text of
    the string and what follows its closing quote. *)
Fixpoint scanstring (s : string) : option (string * string) :=
  match s with
  | "" => None
  | String c r =>
      if Ascii.eqb c dquote then Some ("", r)
      else if Ascii.eqb c "\" then
        match r with
        | "" => None
        | String e r' =>
            if Ascii.eqb e "u" then
              match r' with
              | String h1 (String h2 (String h3 (String h4 r''))) =>
                  match hex_val h1, hex_val h2, hex_val h3, hex_val h4 with
                  | Some 0%N, Some 0%N, Some n3, Some n4 =>
                      match scanstring r'' with
                      | Some (text, rest) =>
                          Some (String (ascii_of_N (16 * n3 + n4)) text, rest)
                      | None => None
                      end
                  | _, _, _, _ => None
                  end
              | _ => None
              end
            else
              match unescape e with
              | Some c' =>
                  match scanstring r' with
                  | Some (text, rest) => Some (String c' text, rest)
                  | None => None
                  end
              | None => None
              end
        end
      else if (N_of_ascii c <? 32)%N then None
      else
        match scanstring r with
        | Some (text, rest) => Some (String c text, rest)
        | None => None
        end
  end.

Definition is_digit (c : ascii) : bool :=
  ((48 <=? N_of_ascii c) && (N_of_ascii c <=? 57))%N.

(** The longest run of digits at the start of a text, and the rest. *)
Fixpoint span_digits (s : string) : string * string :=
  match s with
  | String c s' =>
      if is_digit c
      then let '(ds, rest) := span_digits s' in (String c ds, rest)
      else ("", s)
  | "" => ("", "")
  end.

(** A number without fraction and exponent: an optional minus sign, then
    either a single zero or digits that do not start with a zero; its value
    is read by [int]. *)
Definition scan_number (s : string) : option (Z * string) :=
  let negative := starts_with "-" s in
  let s1 := if negative then tail s else s in
  let '(ds, rest) := span_digits s1 in
  let leading_zero := starts_with "0" ds && (1 <? String.length ds)%nat in
  let fraction :=
    starts_with "." rest || starts_with "e" rest || starts_with "E" rest in
  if leading_zero || fraction then None
  else
    match ds with
    | "" => None
    | _ =>
        match int_of_str ((if negative then "-" else "") ++ ds) with
        | Ok z => Some (z, rest)
        | Raise _ => None
        end
    end.

(** [s] without its prefix [p], when it starts with it. *)
Fixpoint strip_prefix (p s : string) : option string :=
  match p, s with
  | "", _ => Some s
  | String a p', String b s' => if Ascii.eqb a b then strip_prefix p' s' else None
  | _, "" => None
  end.

(** [dict(pairs)] *)
Definition dict_of_pairs {V} (pairs : list (string * V)) : dict V :=
  fold_left (fun d kv => dict_set d (fst kv) (snd kv)) pairs [].

(** The scanner: [scan_once] reads one value, [parse_elements] the items of
    an array up to its closing bracket, [parse_members] the pairs of an
    object up to its closing brace.  [fuel] bounds the number of nested
    calls. *)
Fixpoint scan_once (fuel : nat) (s : string) : option (value * string) :=
  match fuel with
  | O => None
  | S fuel' =>
      match s with
      | "" => None
      | String c r =>
          if Ascii.eqb c dquote then
            match scanstring r with
            | Some (text, rest) => Some (VStr text, rest)
            | None => None
            end
          else if Ascii.eqb c "{" then
            match skip_ws r with
            | String c' r' =>
                if Ascii.eqb c' "}" then Some (VDict [], r')
                else
                  match parse_members fuel' (String c' r') with
                  | Some (pairs, rest) => Some (VDict (dict_of_pairs pairs), rest)
                  | None => None
                  end
            | "" => None
            end
          else if Ascii.eqb c "[" then
            match skip_ws r with
            | String c' r' =>
                if Ascii.eqb c' "]" then Some (VList [], r')
                else
                  match parse_elements fuel' (String c' r') with
                  | Some (items, rest) => Some (VList items, rest)
                  | None => None
                  end
            | "" => None
            end
          else
            match strip_prefix "null" s with
            | Some rest => Some (VNone, rest)
            | None =>
                match strip_prefix "true" s with
                | Some rest => Some (VBool true, rest)
                | None =>
                    match strip_prefix "false" s with
                    | Some rest => Some (VBool false, rest)
                    | None =>
                        match scan_number s with
                        | Some (z, rest) => Some (VInt z, rest)
                        | None => None
                        end
                    end
                end
            end
      end
  end

with parse_elements (fuel : nat) (s : string) : option (list value * string) :=
  match fuel with
  | O => None
  | S fuel' =>
      match scan_once fuel' s with
      | Some (v, r) =>
          match skip_ws r with
          | String c r' =>
              if Ascii.eqb c "]" then Some ([v], r')
              else if Ascii.eqb c "," then
                match parse_elements fuel' (skip_ws r') with
                | Some (items, rest) => Some (v :: items, rest)
                | None => None
                end
              else None
          | "" => None
          end
      | None => None
      end
  end

with parse_members (fuel : nat) (s : string)
  : option (list (string * value) * string) :=
  match fuel with
  | O => None
  | S fuel' =>
      match s with
      | String c r =>
          if Ascii.eqb c dquote then
            match scanstring r with
            | Some (key, r1) =>
                match skip_ws r1 with
                | String c2 r2 =>
                    if Ascii.eqb c2 ":" then
                      match scan_once fuel' (skip_ws r2) with
                      | Some (v, r3) =>
                          match skip_ws r3 with
                          | String c4 r4 =>
                              if Ascii.eqb c4 "}" then Some ([(key, v)], r4)
                              else if Ascii.eqb c4 "," then
                                match parse_members fuel' (skip_ws r4) with
                                | Some (pairs, rest) =>
                                    Some ((key, v) :: pairs, rest)
                                | None => None
                                end
                              else None
                          | "" => None
                          end
                      | None => None
                      end
                    else None
                | "" => None
                end
            | None => None
            end
          else None
      | "" => None
      end
  end.

(** [json.loads(s)] *)
Definition json_loads (s : string) : option value :=
  match scan_once (S (String.length s)) (skip_ws s) with
  | Some (v, rest) =>
      match skip_ws rest with
      | "" => Some v
      | _ => None
      end
  | None => None
  end.

(** ** The server

    The world outside the process is a record of what a request can observe:
    the state of the token file, the answers of the Drive client and the
    clock.  A request runs in a state monad over the log of the searches sent
    to the Drive client and the number of clock readings. *)

(** [service.files().list(q=, spaces=, fields=, pageToken=, pageSize=)];
    an argument that is not passed is [None]. *)
Record request : Type := Request {
  q : option string;
  spaces_ : option string;
  fields : string;
  pageToken : option string;
  pageSize : option Z
}.

(** The decoded answer of a search; either key may be absent. *)
Record response : Type := Response {
  files : option (list file);
  nextPageToken : option string
}.

(** What [get_drive_service] finds at [GOOGLE_TOKEN_PATH]: no file, a file
    that cannot be opened, decoded or turned into credentials (with the
    exception that this raises), or usable credentials. *)
Inductive token_state : Type :=
| TokenMissing
| TokenUnreadable (e : exception)
| TokenValid.

(** The client object that [build] returns. *)
Inductive service : Type := DriveService.

(** How a request ends when it does not return: with an [HTTPException], or
    with another exception that no handler of the endpoint caught. *)
Inductive failure : Type :=
| HTTPException (status_code : Z) (detail : string)
| Unhandled (e : exception).

Record Config : Type := {
  cache_duration_days : Z;
  max_results_per_page : Z;
  supported_mime_types : list string;
  processor_url : option string
}.

(** [Config.__init__], lines 33-37. *)
Definition Config_init (getenv : string -> option string) : py Config :=
  let getenv_or k default :=
    match getenv k with Some v => v | None => default end in
  days <- int_of_str (getenv_or "CACHE_DURATION_DAYS" "7") ;;
  per_page <- int_of_str (getenv_or "MAX_RESULTS_PER_PAGE" "100") ;;
  Ok {| cache_duration_days := days;
        max_results_per_page := per_page;
        supported_mime_types := split "," (getenv_or "SUPPORTED_MIME_TYPES" "");
        processor_url := getenv "PROCESSOR_URL" |}.

(** The state that a request threads: the searches sent so far, oldest
    first, and the number of readings of the clock. *)
Record world : Type := World {
  calls : list request;
  clock_reads : nat
}.

Definition io (E A : Type) : Type := world -> result E A * world.

Definition io_ret {E A} (a : A) : io E A := fun w => (Ok a, w).

Definition io_raise {E A} (e : E) : io E A := fun w => (Raise e, w).

Definition io_bind {E A B} (m : io E A) (k : A -> io E B) : io E B :=
  fun w =>
    match m w with
    | (Ok a, w') => k a w'
    | (Raise e, w') => (Raise e, w')
    end.

Definition io_lift {E A} (m : result E A) : io E A := fun w => (m, w).

Declare Scope io_scope.
Delimit Scope io_scope with io.
Notation "x <- m ;; k" := (io_bind m (fun x => k))
  (at level 61, m at next level, right associativity) : io_scope.

(** [try: body  except Exception as e: raise HTTPException(500, str(e))] *)
Definition try_except {A} (body : io exception A) : io failure A :=
  fun w =>
    match body w with
    | (Ok a, w') => (Ok a, w')
    | (Raise e, w') => (Raise (HTTPException 500 (exc_str e)), w')
    end.

Record DocumentList : Type := {
  documents : list file;
  next_page_token : option string;
  total_count : Z
}.

Record StatusResponse : Type := {
  total_documents : Z;
  classified_count : Z;
  pending_count : Z;
  last_update : string
}.

Record ReportResponse : Type := {
  report_content : string;
  generated_at : string;
  format : string
}.

Definition or_empty {A} (o : option (list A)) : list A :=
  match o with Some l => l | None => [] end.

Definition mime_clause (mime : string) : string :=
  "mimeType = '" ++ mime ++ "'".

Definition classified_clause : string :=
  "properties has { key='classified' and value='true' }".

(** [l.append(x)] *)
Definition list_append {A} (l : list A) (x : A) : list A := (l ++ [x])%list.

Section Server.
Open Scope io_scope.

Variable config : Config.
Variable token : token_state.
(** The answer of the Drive client to a search, given the searches
    already sent. *)
Variable drive : list request -> request -> py response.
(** The text of the [n]-th reading of [datetime.now().isoformat()]. *)
Variable isoformat_now : nat -> string.

(** [service.files().list(...).execute()] *)
Definition execute (_ : service) (r : request) : io exception response :=
  fun w =>
    (drive (calls w) r,
     {| calls := (calls w ++ [r])%list; clock_reads := clock_reads w |}).

Definition now : io exception string :=
  fun w =>
    (Ok (isoformat_now (clock_reads w)),
     {| calls := calls w; clock_reads := S (clock_reads w) |}).

(** Lines 42-50. *)
Definition get_drive_service : io failure service :=
  match token with
  | TokenMissing =>
      io_raise (HTTPException 500 "Google OAuth token not found")
  | TokenUnreadable e => io_raise (Unhandled e)
  | TokenValid => io_ret DriveService
  end.

(** [min(page_size, limit)] with an optional [page_size]. *)
Definition min_page_size (page_size : option Z) (limit : Z) : py Z :=
  match page_size with
  | Some n => Ok (if limit <? n then limit else n)
  | None =>
      Raise (Exc TypeError
               "'<' not supported between instances of 'int' and 'NoneType'")
  end.

(** The query of [list_documents], lines 63-79. *)
Definition documents_query (folder_id : option string)
    (include_processed : bool) : option string :=
  let query_parts : list string := [] in
  let query_parts :=
    match folder_id with
    | Some id =>
        if truthy id then list_append query_parts ("'" ++ id ++ "' in parents")
        else query_parts
    | None => query_parts
    end in
  let query_parts :=
    match supported_mime_types config with
    | [] => query_parts
    | _ =>
        let mime_types := map mime_clause (supported_mime_types config) in
        list_append query_parts ("(" ++ join " or " mime_types ++ ")")
    end in
  let query_parts :=
    if negb include_processed
    then list_append query_parts ("not " ++ classified_clause)
    else query_parts in
  match query_parts with
  | [] => None
  | _ => Some (join " and " query_parts)
  end.

(** Lines 54-97. *)
Definition list_documents (folder_id page_token : option string)
    (page_size : option Z) (include_processed : bool)
  : io failure DocumentList :=
  service <- get_drive_service ;;
  let query := documents_query folder_id include_processed in
  try_except (
    size <- io_lift (min_page_size page_size (max_results_per_page config)) ;;
    response <- execute service
      {| q := query;
         spaces_ := Some "drive";
         fields := "nextPageToken, files(id, name, mimeType, createdTime, modifiedTime, owners, size)";
         pageToken := page_token;
         pageSize := Some size |} ;;
    io_ret {| documents := or_empty (files response);
              next_page_token := nextPageToken response;
              total_count := len (or_empty (files response)) |}).

(** The two searches of [get_status], lines 106-115. *)
Definition total_request : request :=
  {| q := Some (join " or " (map mime_clause (supported_mime_types config)));
     spaces_ := None;
     fields := "files(id)";
     pageToken := None;
     pageSize := None |}.

Definition classified_request : request :=
  {| q := Some classified_clause;
     spaces_ := None;
     fields := "files(id)";
     pageToken := None;
     pageSize := None |}.

(** Lines 100-128. *)
Definition get_status : io failure StatusResponse :=
  service <- get_drive_service ;;
  try_except (
    total_response <- execute service total_request ;;
    classified_response <- execute service classified_request ;;
    let total_count := len (or_empty (files total_response)) in
    let classified_count := len (or_empty (files classified_response)) in
    last_update <- now ;;
    io_ret {| total_documents := total_count;
              classified_count := classified_count;
              pending_count := total_count - classified_count;
              last_update := last_update |}).

(** [if date: query_parts.append(f"modifiedTime {op} '{date}'")] *)
Definition append_date (query_parts : list string) (op : string)
    (date : option string) : list string :=
  match date with
  | Some d =>
      if truthy d
      then list_append query_parts ("modifiedTime " ++ op ++ " '" ++ d ++ "'")
      else query_parts
  | None => query_parts
  end.

(** The query of [get_report], lines 141-148. *)
Definition report_query (start_date end_date : option string) : string :=
  let query_parts := [classified_clause] in
  let query_parts := append_date query_parts ">=" start_date in
  let query_parts := append_date query_parts "<=" end_date in
  join " and " query_parts.

(** The search of [get_report], lines 151-155. *)
Definition report_request (start_date end_date : option string) : request :=
  {| q := Some (report_query start_date end_date);
     spaces_ := None;
     fields := "files(id, name, properties)";
     pageToken := None;
     pageSize := Some 1000 |}.

(** Lines 131-172. *)
Definition get_report (format : string) (start_date end_date : option string)
  : io failure ReportResponse :=
  service <- get_drive_service ;;
  try_except (
    response <- execute service (report_request start_date end_date) ;;
    let files := or_empty (files response) in
    report_content <-
      (if String.eqb format "markdown"
       then (generated <- now ;;
             io_lift (_generate_markdown_report generated files))
       else io_ret (json_dumps 2 files)) ;;
    generated_at <- now ;;
    io_ret {| report_content := report_content;
              generated_at := generated_at;
              format := format |}).

(** The routes registered on the application, lines 53, 99 and 130, with
    the arguments of a request that has passed the validation of the
    framework. *)
Inductive endpoint : Type :=
| Documents (folder_id page_token : option string) (page_size : option Z)
    (include_processed : bool)
| Status
| Report (format : string) (start_date end_date : option string).

Inductive body : Type :=
| DocumentListBody (d : DocumentList)
| StatusBody (s : StatusResponse)
| ReportBody (r : ReportResponse).

Definition io_map {E A B} (g : A -> B) (m : io E A) : io E B :=
  a <- m ;; io_ret (g a).

(** The endpoint function of a route, run on the arguments of a request. *)
Definition serve (ep : endpoint) : io failure body :=
  match ep with
  | Documents folder_id page_token page_size include_processed =>
      io_map DocumentListBody
        (list_documents folder_id page_token page_size include_processed)
  | Status => io_map StatusBody get_status
  | Report format start_date end_date =>
      io_map ReportBody (get_report format start_date end_date)
  end.

(** The searches that a request sends, in their order. *)
Definition sent (ep : endpoint) (w : world) : list request :=
  skipn (length (calls w)) (calls (snd (serve ep w))).

End Server.

(** * Specification

    The notions in which the properties are stated. *)

(** ** Document records *)

(** The field is absent or holds a string. *)
Definition str_or_missing (o : option value) : bool :=
  match o with
  | None | Some (VStr _) => true
  | Some _ => false
  end.

(** A document record as the specification describes it: the properties bag
    may be missing, and so may each of its two fields, which are strings. *)
Definition wf_record (f : file) : bool :=
  match dict_lookup f "properties" with
  | None => true
  | Some (VDict props) =>
      str_or_missing (dict_lookup props "categories")
      && str_or_missing (dict_lookup props "overall_confidence")
  | Some _ => false
  end.

(** The [overall_confidence] text of a record, when it has one. *)
Definition confidence_text (f : file) : option string :=
  match dict_lookup f "properties" with
  | Some (VDict props) =>
      match dict_lookup props "overall_confidence" with
      | Some (VStr s) => Some s
      | _ => None
      end
  | _ => None
  end.

(** The [categories] text of a record, when it has one. *)
Definition categories_text (f : file) : option string :=
  match dict_lookup f "properties" with
  | Some (VDict props) =>
      match dict_lookup props "categories" with
      | Some (VStr s) => Some s
      | _ => None
      end
  | _ => None
  end.

(** The confidence of a record is missing or is a text that [int] accepts. *)
Definition confidence_parses (f : file) : bool :=
  match confidence_text f with
  | Some s => match int_of_str s with Ok _ => true | Raise _ => false end
  | None => true
  end.

(** Lines 188 and 193: the confidence that the loop reads from a record. *)
Definition record_confidence (f : file) : py Z :=
  conf <- py_get (dict_get f "properties" (VDict []))
            "overall_confidence" (VInt 0) ;;
  py_int conf.

(** The category tokens of a record, in the words of the specification: the
    [categories] property split on commas, empty tokens discarded; none when
    the property or the properties bag is missing. *)
Definition category_tokens (f : file) : list string :=
  match dict_lookup f "properties" with
  | Some (VDict props) =>
      match dict_lookup props "categories" with
      | Some (VStr s) => filter truthy (split "," s)
      | _ => []
      end
  | _ => []
  end.

(** Number of occurrences of a token over all records. *)
Definition token_count (tok : string) (files : list file) : Z :=
  Z.of_nat (count_occ string_dec (flat_map category_tokens files) tok).

(** A record of the specification whose confidence is not a number. *)
Definition unparseable_record : file :=
  [ ("id", VStr "doc1");
    ("name", VStr "Document 1");
    ("properties", VDict [ ("classified", VStr "true");
                           ("overall_confidence", VStr "abc");
                           ("categories", VStr "internal") ]) ].

(** ** Tallies *)

(** The sum of the counts of a tally. *)
Definition total (d : dict Z) : Z := fold_right Z.add 0 (map snd d).

(** The bucket of a confidence, in the words of the specification. *)
Inductive bucket : Z -> string -> Prop :=
| bucket_high c : c >= 90 -> bucket c "HIGH"
| bucket_medium c : 70 <= c < 90 -> bucket c "MEDIUM"
| bucket_low c : c < 70 -> bucket c "LOW".

(** The count of a bucket in a tally. *)
Definition level_count (t : tally) (level : string) : Z :=
  dict_get (confidence_levels t) level 0.

(** The record falls in the bucket [level]. *)
Definition counted_in (level : string) (f : file) : bool :=
  match record_confidence f with
  | Ok c => String.eqb (level_of c) level
  | Raise _ => false
  end.

(** The number of records that fall in the bucket [level]. *)
Definition count_level (level : string) (files : list file) : Z :=
  len (filter (counted_in level) files).

(** The shape of the confidence tally: its three keys, in their order. *)
Definition levels (h m l : Z) : dict Z :=
  [("HIGH", h); ("MEDIUM", m); ("LOW", l)].

(** What a record of confidence [c] adds to the bucket [level]. *)
Definition hit (level : string) (c : Z) : Z :=
  if String.eqb (level_of c) level then 1 else 0.

(** ** Decoded JSON values *)

(** The decimal digits of a positive number. *)
Definition digits_of (p : positive) : string :=
  NilEmpty.string_of_uint (Pos.to_uint p).

(** A decoded [int] has no more digits than the interpreter would read. *)
Definition int_in_range (z : Z) : bool :=
  (String.length (str_of_int (Z.abs z)) <=? int_max_str_digits)%nat.

(** What may follow a number in a JSON text. *)
Definition delimited (s : string) : bool :=
  match s with
  | "" => true
  | String c _ =>
      negb (is_digit c || Ascii.eqb c "." || Ascii.eqb c "e" || Ascii.eqb c "E")
  end.

(** The keys differ from each other. *)
Fixpoint distinct (l : list string) : bool :=
  match l with
  | [] => true
  | k :: l' => negb (existsb (String.eqb k) l') && distinct l'
  end.

(** A value that [json.loads] can return: the keys of a dictionary differ
    from each other, and an [int] is within the limit on digits. *)
Fixpoint decoded (v : value) : bool :=
  match v with
  | VInt z => int_in_range z
  | VList l => forallb decoded l
  | VDict d => distinct (map fst d) && forallb (fun kv => decoded (snd kv)) d
  | _ => true
  end.

(** The number of nested calls that the scanner needs for a value. *)
Fixpoint weight (v : value) : nat :=
  match v with
  | VList l => S (fold_right (fun x acc => S (weight x + acc)) O l)
  | VDict d => S (fold_right (fun kv acc => S (weight (snd kv) + acc)) O d)
  | _ => 1
  end.

(** The calls that the scanner needs for the items of an array. *)
Definition items_weight (l : list value) : nat :=
  fold_right (fun x acc => S (weight x + acc)) O l.

(** The calls that the scanner needs for the pairs of an object. *)
Definition members_weight (d : list (string * value)) : nat :=
  fold_right (fun kv acc => S (weight (snd kv) + acc)) O d.

(** One pair of an object, as [json_encode] writes it. *)
Definition encode_member (indent level : nat) (kv : string * value) : string :=
  json_string (fst kv) ++ ": " ++ json_encode indent level (snd kv).

(** The scanner reads the value [x], encoded at [level], back. *)
Definition scans (indent level : nat) (x : value) : Prop :=
  forall rest fuel,
    delimited rest = true -> (weight x <= fuel)%nat ->
    scan_once fuel (json_encode indent level x ++ rest) = Some (x, rest).

(** ** Credentials *)

(** How [get_drive_service] ends on credentials that it cannot use. *)
Definition credential_failure (token : token_state) : option failure :=
  match token with
  | TokenMissing => Some (HTTPException 500 "Google OAuth token not found")
  | TokenUnreadable e => Some (Unhandled e)
  | TokenValid => None
  end.

(** ** Sample data

    The records, the configuration and the failure of the integration tests
    ([tests/test_api_integration.py]), and two records without the optional
    fields. *)

(** The first record of [test_get_report]. *)
Definition doc1 : file :=
  [ ("id", VStr "doc1");
    ("name", VStr "Document 1");
    ("properties",
     VDict [ ("classified", VStr "true");
             ("classification_date", VStr "2025-03-18T00:00:00.000Z");
             ("overall_confidence", VStr "90");
             ("categories", VStr "confidential,sensitive") ]) ].

(** The second record of [test_get_report]. *)
Definition doc2 : file :=
  [ ("id", VStr "doc2");
    ("name", VStr "Document 2");
    ("properties",
     VDict [ ("classified", VStr "true");
             ("classification_date", VStr "2025-03-18T01:00:00.000Z");
             ("overall_confidence", VStr "75");
             ("categories", VStr "internal") ]) ].

(** A record without properties. *)
Definition doc3 : file :=
  [ ("id", VStr "doc3"); ("name", VStr "Document 3") ].

(** A record without confidence and with empty categories. *)
Definition doc4 : file :=
  [ ("id", VStr "doc4");
    ("name", VStr "Document 4");
    ("properties", VDict [ ("classified", VStr "true");
                           ("categories", VStr "") ]) ].

Definition sample_files : list file := [doc1; doc2; doc3; doc4].

Definition sample_now : string := "2025-03-18T02:00:00".

(** The tallies of [sample_files]. *)
Definition sample_tally : tally :=
  {| categories := [("confidential", 1); ("sensitive", 1); ("internal", 1)];
     confidence_levels := [("HIGH", 1); ("MEDIUM", 1); ("LOW", 2)] |}.

(** The report on [sample_files]. *)
Definition sample_report : string :=
  Eval vm_compute in
    match _generate_markdown_report sample_now sample_files with
    | Ok text => text
    | Raise _ => ""
    end.

(** The configuration of the tests. *)
Definition sample_config : Config :=
  {| cache_duration_days := 7;
     max_results_per_page := 100;
     supported_mime_types :=
       [ "application/vnd.google-apps.document";
         "application/vnd.google-apps.spreadsheet";
         "text/plain" ];
     processor_url := Some "http://localhost:8001" |}.

(** The state before a request. *)
Definition sample_world : world := {| calls := []; clock_reads := 0 |}.

(** A clock that stands still. *)
Definition sample_clock (n : nat) : string := sample_now.

(** A Drive client that fails as in [test_error_handling]. *)
Definition failing_drive (_ : list request) (_ : request) : py response :=
  Raise (Exc (OtherError "Exception") "API Error").

(** A Drive client that answers every search with the two classified
    records. *)
Definition report_drive (_ : list request) (_ : request) : py response :=
  Ok {| files := Some [doc1; doc2]; nextPageToken := None |}.

(** A Drive client that answers as in [test_get_status]: three files, then
    two classified files. *)
Definition status_drive (history : list request) (_ : request) : py response :=
  match history with
  | [] => Ok {| files := Some [doc1; doc2; doc3]; nextPageToken := None |}
  | _ => Ok {| files := Some [doc1; doc2]; nextPageToken := None |}
  end.

(** The records of the example of the specification: confidences 95, 70 and
    50, categories [a,b], [a] and the empty text. *)
Definition example_record (confidence cats : string) : file :=
  [ ("properties", VDict [ ("overall_confidence", VStr confidence);
                           ("categories", VStr cats) ]) ].

(** ** Notions of the further properties *)

(** The loop body reads the record without raising: the properties bag is
    missing or a dictionary, [categories] is missing or a string, and
    [overall_confidence] is missing or a value that [int] accepts. *)
Definition readable (f : file) : bool :=
  match dict_lookup f "properties" with
  | None => true
  | Some (VDict props) =>
      str_or_missing (dict_lookup props "categories")
      && match dict_lookup props "overall_confidence" with
         | None => true
         | Some v => match py_int v with Ok _ => true | Raise _ => false end
         end
  | Some _ => false
  end.

(** A key list with [k] added at its end, unless it is there already. *)
Definition add_key (keys : list string) (k : string) : list string :=
  if existsb (String.eqb k) keys then keys else (keys ++ [k])%list.

(** The elements of a list, each once, in the order of their first
    occurrences. *)
Definition first_occurrences (l : list string) : list string :=
  fold_left add_key l [].

(** The report on [files], written from the counts of the records. *)
Definition expected_report (now : string) (files : list file) : string :=
  join nl
    (app [ "# Document Classification Report";
           nl ++ "Generated: " ++ now;
           nl ++ "Total Documents: " ++ str_of_int (len files);
           nl ++ "## Summary";
           nl ++ "### Categories" ]
       (app (map (fun tok => tally_line (tok, token_count tok files))
               (first_occurrences (flat_map category_tokens files)))
          [ nl ++ "### Confidence Levels";
            tally_line ("HIGH", count_level "HIGH" files);
            tally_line ("MEDIUM", count_level "MEDIUM" files);
            tally_line ("LOW", count_level "LOW" files) ])).

(** Every character of the text satisfies [p]. *)
Fixpoint all_chars (p : ascii -> bool) (s : string) : bool :=
  match s with
  | "" => true
  | String c s' => p c && all_chars p s'
  end.

(** The characters of which the literals of [int] are made. *)
Definition numeric_char (c : ascii) : bool :=
  is_space c || is_digit c || Ascii.eqb c "+" || Ascii.eqb c "-"
  || Ascii.eqb c "_".

(** The line feed and the printable characters of ASCII. *)
Definition ascii_char (c : ascii) : bool :=
  ((N_of_ascii c =? 10) || (32 <=? N_of_ascii c) && (N_of_ascii c <? 127))%N.

(** The search of [list_documents] for a page of [size] files. *)
Definition documents_request (config : Config)
    (folder_id page_token : option string) (size : Z)
    (include_processed : bool) : request :=
  {| q := documents_query config folder_id include_processed;
     spaces_ := Some "drive";
     fields := "nextPageToken, files(id, name, mimeType, createdTime, modifiedTime, owners, size)";
     pageToken := page_token;
     pageSize := Some size |}.

(** A record whose confidence is a number with a decimal point. *)
Definition fraction_record : file :=
  [ ("id", VStr "doc5");
    ("properties", VDict [ ("overall_confidence", VStr "0.95");
                           ("categories", VStr "internal") ]) ].

(** A record whose confidence is a JSON number and whose categories repeat
    and end with a comma. *)
Definition number_record : file :=
  [ ("id", VStr "doc6");
    ("properties", VDict [ ("overall_confidence", VInt 95);
                           ("categories", VStr "internal,public,internal,") ]) ].

(** ** Sample data of the further properties *)

(** Two batches of readable records. *)
Definition batch_a : list file := [doc1; doc3].

Definition batch_b : list file := [doc2; number_record].

(** The tallies of the two batches. *)
Definition tally_a : tally :=
  {| categories := [("confidential", 1); ("sensitive", 1)];
     confidence_levels := [("HIGH", 1); ("MEDIUM", 0); ("LOW", 1)] |}.

Definition tally_b : tally :=
  {| categories := [("internal", 3); ("public", 1)];
     confidence_levels := [("HIGH", 1); ("MEDIUM", 1); ("LOW", 0)] |}.

(** An environment without any of the variables of [Config]. *)
Definition empty_environment (_ : string) : option string := None.

(** The configuration that [Config] reads from the empty environment. *)
Definition default_config : Config :=
  {| cache_duration_days := 7;
     max_results_per_page := 100;
     supported_mime_types := [""];
     processor_url := None |}.

(** A Drive client that answers every search with a record that the loop
    reads and one whose confidence has a decimal point. *)
Definition fraction_drive (_ : list request) (_ : request) : py response :=
  Ok {| files := Some [doc1; fraction_record]; nextPageToken := Some "next" |}.

(** An environment whose page maximum has a decimal point. *)
Definition fraction_environment (name : string) : option string :=
  if String.eqb name "MAX_RESULTS_PER_PAGE" then Some "50.5" else None.

(** * Properties *)

(** ** Dictionaries *)

Lemma dict_lookup_set_same {V} (d : dict V) k v :
  dict_lookup (dict_set d k v) k = Some v.
Proof.
  induction d as [|[k' v'] d IH]; simpl.
  - now rewrite String.eqb_refl.
  - destruct (String.eqb k' k) eqn:E; simpl; rewrite E; auto.
Qed.

Lemma dict_lookup_set_other {V} (d : dict V) k k' v :
  k <> k' -> dict_lookup (dict_set d k v) k' = dict_lookup d k'.
Proof.
  intros Hne. induction d as [|[k0 v0] d IH]; simpl.
  - destruct (String.eqb k k') eqn:E; auto.
    apply String.eqb_eq in E. contradiction.
  - destruct (String.eqb k0 k) eqn:E; simpl.
    + apply String.eqb_eq in E. subst k0.
      destruct (String.eqb k k') eqn:E'; auto.
      apply String.eqb_eq in E'. contradiction.
    + destruct (String.eqb k0 k'); auto.
Qed.

Lemma dict_get_set {V} (d : dict V) k k' v default :
  dict_get (dict_set d k v) k' default =
  if String.eqb k k' then v else dict_get d k' default.
Proof.
  unfold dict_get. destruct (String.eqb k k') eqn:E.
  - apply String.eqb_eq in E. subst. now rewrite dict_lookup_set_same.
  - apply String.eqb_neq in E. now rewrite dict_lookup_set_other.
Qed.

Lemma dict_lookup_None {V} (d : dict V) k :
  dict_lookup d k = None <-> ~ In k (map fst d).
Proof.
  induction d as [|[k' v'] d IH]; simpl.
  - tauto.
  - destruct (String.eqb k' k) eqn:E.
    + apply String.eqb_eq in E. split; [discriminate | intros H; exfalso; auto].
    + apply String.eqb_neq in E. rewrite IH. tauto.
Qed.

Lemma dict_set_keys {V} (d : dict V) k v :
  map fst (dict_set d k v) =
  if existsb (String.eqb k) (map fst d) then map fst d
  else (map fst d ++ [k])%list.
Proof.
  induction d as [|[k' v'] d IH]; simpl; auto.
  rewrite (String.eqb_sym k k').
  destruct (String.eqb k' k) eqn:E; simpl; auto.
  rewrite IH. now destruct (existsb (String.eqb k) (map fst d)).
Qed.

Lemma dict_set_NoDup {V} (d : dict V) k v :
  NoDup (map fst d) -> NoDup (map fst (dict_set d k v)).
Proof.
  intros Hnd. rewrite dict_set_keys.
  destruct (existsb (String.eqb k) (map fst d)) eqn:E; auto.
  apply NoDup_app; auto.
  - constructor; [intros [] | constructor].
  - intros x Hx [Heq|[]]. subst x.
    assert (existsb (String.eqb k) (map fst d) = true); [|congruence].
    apply existsb_exists. exists k. split; auto. apply String.eqb_refl.
Qed.

Lemma total_set (d : dict Z) k v :
  total (dict_set d k v) = total d - dict_get d k 0 + v.
Proof.
  unfold total, dict_get. induction d as [|[k' v'] d IH]; simpl.
  - lia.
  - destruct (String.eqb k' k) eqn:E; simpl; lia.
Qed.

(** ** The aggregation loop *)

Ltac inv_bind H :=
  match type of H with
  | bind ?m _ = Ok _ =>
      let E := fresh "E" in
      destruct m eqn:E; simpl in H; [|discriminate H]
  end.

Lemma level_of_bucket c : bucket c (level_of c).
Proof.
  unfold level_of.
  destruct (c >=? 90) eqn:E1; [constructor; lia|].
  destruct (c >=? 70) eqn:E2; constructor; lia.
Qed.

Lemma bucket_functional c l1 l2 : bucket c l1 -> bucket c l2 -> l1 = l2.
Proof. intros H1 H2; inversion H1; inversion H2; subst; auto; lia. Qed.

Lemma level_of_cases c :
  level_of c = "HIGH" \/ level_of c = "MEDIUM" \/ level_of c = "LOW".
Proof.
  unfold level_of. destruct (c >=? 90); auto. destruct (c >=? 70); auto.
Qed.

Lemma fold_count_category_filter toks d :
  fold_left count_category toks d =
  fold_left count_category (filter truthy toks) d.
Proof.
  revert d. induction toks as [|tok toks IH]; intros d; simpl; auto.
  destruct (truthy tok) eqn:E; simpl; auto.
  unfold count_category at 2. now rewrite E.
Qed.

Lemma category_tokens_nonempty f tok :
  In tok (category_tokens f) -> tok <> "".
Proof.
  unfold category_tokens.
  destruct (dict_lookup f "properties") as [[| | | |?|props]|]; try easy.
  destruct (dict_lookup props "categories") as [[| | |s| |]|]; try easy.
  intros H. apply filter_In in H. destruct H as [_ H]. now intros ->.
Qed.

(** What a successful pass of the loop body has done. *)
Lemma tally_file_Ok t f t' :
  tally_file t f = Ok t' ->
  exists c,
    record_confidence f = Ok c
    /\ categories t' = fold_left count_category (category_tokens f) (categories t)
    /\ dict_incr (confidence_levels t) (level_of c) = Ok (confidence_levels t').
Proof.
  unfold tally_file, record_confidence, category_tokens, dict_get.
  intros H.
  destruct (dict_lookup f "properties") as [[| | | |?|props]|] eqn:Ep;
    simpl in H; try discriminate H; unfold dict_get in H; simpl.
  - destruct (dict_lookup props "categories") as [[| | |s| |]|] eqn:Ec;
      simpl in H; try discriminate H; unfold dict_get.
    + inv_bind H. inv_bind H. injection H as <-. simpl.
      exists a. repeat split; auto. apply fold_count_category_filter.
    + inv_bind H. inv_bind H. injection H as <-. simpl.
      exists a. repeat split; auto.
  - inv_bind H. injection H as <-. simpl. exists 0. repeat split; auto.
Qed.

Lemma truthy_nonempty s : truthy s = true <-> s <> "".
Proof. destruct s; simpl; split; congruence. Qed.

Lemma count_category_get d cat tok :
  cat <> "" ->
  dict_get (count_category d cat) tok 0 =
  dict_get d tok 0 + (if string_dec cat tok then 1 else 0).
Proof.
  intros Hne. unfold count_category.
  apply truthy_nonempty in Hne. rewrite Hne, dict_get_set.
  destruct (string_dec cat tok) as [->|Hd].
  - now rewrite String.eqb_refl.
  - apply String.eqb_neq in Hd. rewrite Hd. lia.
Qed.

Lemma fold_count_category_get toks : forall d tok,
  (forall x, In x toks -> x <> "") ->
  dict_get (fold_left count_category toks d) tok 0 =
  dict_get d tok 0 + Z.of_nat (count_occ string_dec toks tok).
Proof.
  induction toks as [|cat toks IH]; intros d tok Hne; simpl.
  - lia.
  - rewrite IH by (intros; apply Hne; now right).
    rewrite count_category_get by (apply Hne; now left).
    destruct (string_dec cat tok); lia.
Qed.

Lemma fold_count_category_lookup toks : forall d tok,
  (forall x, In x toks -> x <> "") ->
  dict_lookup (fold_left count_category toks d) tok = None <->
  dict_lookup d tok = None /\ ~ In tok toks.
Proof.
  induction toks as [|cat toks IH]; intros d tok Hne; simpl.
  - tauto.
  - rewrite IH by (intros; apply Hne; now right).
    unfold count_category.
    assert (Hc : truthy cat = true) by (apply truthy_nonempty, Hne; now left).
    rewrite Hc.
    destruct (string_dec cat tok) as [->|Hd].
    + rewrite dict_lookup_set_same. split; [intros [? _]; discriminate|].
      intros [_ H]. exfalso. apply H. now left.
    + rewrite dict_lookup_set_other by assumption. tauto.
Qed.

Lemma fold_count_category_NoDup toks : forall d,
  NoDup (map fst d) -> NoDup (map fst (fold_left count_category toks d)).
Proof.
  induction toks as [|cat toks IH]; intros d Hd; simpl; auto.
  apply IH. unfold count_category. destruct (truthy cat); auto.
  now apply dict_set_NoDup.
Qed.

Lemma fold_count_category_total toks : forall d,
  (forall x, In x toks -> x <> "") ->
  total (fold_left count_category toks d) = total d + len toks.
Proof.
  unfold len.
  induction toks as [|cat toks IH]; intros d Hne; simpl length.
  - simpl. lia.
  - simpl fold_left. rewrite IH by (intros; apply Hne; now right).
    unfold count_category.
    assert (Hc : truthy cat = true) by (apply truthy_nonempty, Hne; now left).
    rewrite Hc, total_set. lia.
Qed.

Lemma dict_incr_levels h m l c :
  dict_incr (levels h m l) (level_of c) =
  Ok (levels (h + hit "HIGH" c) (m + hit "MEDIUM" c) (l + hit "LOW" c)).
Proof.
  unfold hit.
  destruct (level_of_cases c) as [E|[E|E]]; rewrite E; cbn;
    repeat rewrite Z.add_0_r; reflexivity.
Qed.

Lemma hit_sum c : hit "HIGH" c + hit "MEDIUM" c + hit "LOW" c = 1.
Proof.
  unfold hit. destruct (level_of_cases c) as [E|[E|E]]; rewrite E; reflexivity.
Qed.

Lemma count_level_cons level f files c :
  record_confidence f = Ok c ->
  count_level level (f :: files) = hit level c + count_level level files.
Proof.
  intros Hc. unfold count_level, len, hit. simpl filter.
  unfold counted_in at 1. rewrite Hc.
  destruct (String.eqb (level_of c) level); simpl length; lia.
Qed.

Lemma token_count_cons tok f files :
  token_count tok (f :: files) =
  Z.of_nat (count_occ string_dec (category_tokens f) tok) + token_count tok files.
Proof.
  unfold token_count. simpl flat_map. rewrite count_occ_app. lia.
Qed.

(** The state of the two tallies after the loop, from any starting state with
    the three buckets. *)
Lemma tally_files_Ok files : forall t t' h m l,
  confidence_levels t = levels h m l ->
  tally_files t files = Ok t' ->
  confidence_levels t' =
    levels (h + count_level "HIGH" files) (m + count_level "MEDIUM" files)
           (l + count_level "LOW" files)
  /\ categories t' =
       fold_left count_category (flat_map category_tokens files) (categories t)
  /\ Forall (fun f => exists c, record_confidence f = Ok c) files.
Proof.
  induction files as [|f files IH]; intros t t' h m l Hl H; simpl in H.
  - injection H as <-. rewrite Hl. unfold count_level, len; simpl.
    repeat rewrite Z.add_0_r. auto.
  - inv_bind H. apply tally_file_Ok in E. destruct E as (c & Hc & Hcat & Hinc).
    rewrite Hl, dict_incr_levels in Hinc. injection Hinc as Hinc.
    destruct (IH _ _ _ _ _ (eq_sym Hinc) H) as (IH1 & IH2 & IH3).
    split; [|split].
    + rewrite IH1, !(count_level_cons _ f files c Hc), !Z.add_assoc.
      reflexivity.
    + rewrite IH2, Hcat. simpl flat_map. now rewrite fold_left_app.
    + constructor; eauto.
Qed.

Lemma category_tokens_text f :
  category_tokens f =
  match categories_text f with
  | Some s => filter truthy (split "," s)
  | None => []
  end.
Proof.
  unfold category_tokens, categories_text.
  destruct (dict_lookup f "properties") as [[| | | |?|props]|]; auto.
  destruct (dict_lookup props "categories") as [[| | |s| |]|]; auto.
Qed.

Lemma category_tokens_empty f :
  categories_text f = None \/ categories_text f = Some "" ->
  category_tokens f = [].
Proof. rewrite category_tokens_text. now intros [-> | ->]. Qed.

Lemma record_confidence_wf f :
  wf_record f = true ->
  record_confidence f =
  match confidence_text f with
  | Some s => int_of_str s
  | None => Ok 0
  end.
Proof.
  unfold wf_record, record_confidence, confidence_text, dict_get.
  destruct (dict_lookup f "properties") as [[| | | |?|props]|];
    try discriminate; auto.
  simpl. unfold dict_get.
  destruct (dict_lookup props "overall_confidence") as [[| | |s| |]|];
    simpl; auto; rewrite andb_comm; discriminate.
Qed.

Lemma record_confidence_parses f :
  wf_record f = true -> confidence_parses f = true ->
  exists c, record_confidence f = Ok c.
Proof.
  intros Hwf Hp. rewrite record_confidence_wf by assumption.
  unfold confidence_parses in Hp.
  destruct (confidence_text f) as [s|]; eauto.
  destruct (int_of_str s); eauto. discriminate.
Qed.

(** The loop body returns on a record of the specification whose confidence
    it can read. *)
Lemma tally_file_returns t f h m l c :
  confidence_levels t = levels h m l ->
  wf_record f = true ->
  record_confidence f = Ok c ->
  tally_file t f =
  Ok {| categories := fold_left count_category (category_tokens f) (categories t);
        confidence_levels :=
          levels (h + hit "HIGH" c) (m + hit "MEDIUM" c) (l + hit "LOW" c) |}.
Proof.
  intros Hl Hwf Hc.
  assert (exists t', tally_file t f = Ok t') as [t' Ht].
  { revert Hwf Hc.
    unfold wf_record, record_confidence, tally_file, dict_get.
    destruct (dict_lookup f "properties") as [[| | | |?|props]|];
      try discriminate; simpl; unfold dict_get.
    - destruct (dict_lookup props "categories") as [[| | |s| |]|];
        try discriminate; simpl; intros _ ->; simpl;
        rewrite Hl, dict_incr_levels; simpl; eauto.
    - intros _ Hc. injection Hc as <-.
      rewrite Hl, (dict_incr_levels h m l 0). simpl. eauto. }
  rewrite Ht. destruct (tally_file_Ok _ _ _ Ht) as (c' & Hc' & Hcat & Hinc).
  rewrite Hc in Hc'. injection Hc' as <-.
  rewrite Hl, dict_incr_levels in Hinc. injection Hinc as Hinc.
  destruct t' as [cats lv]. simpl in *. now subst.
Qed.

Lemma tally_files_returns files : forall t h m l,
  confidence_levels t = levels h m l ->
  Forall (fun f => wf_record f = true /\ confidence_parses f = true) files ->
  exists t', tally_files t files = Ok t'.
Proof.
  induction files as [|f files IH]; intros t h m l Hl Hall; simpl; eauto.
  inversion Hall as [|? ? [Hwf Hp] Hall']; subst.
  destruct (record_confidence_parses f Hwf Hp) as [c Hc].
  rewrite (tally_file_returns t f h m l c Hl Hwf Hc). simpl.
  eapply IH; eauto. reflexivity.
Qed.

(** The loop body raises on a record whose confidence [int] rejects. *)
Lemma tally_file_unparseable t f s e :
  wf_record f = true ->
  confidence_text f = Some s ->
  int_of_str s = Raise e ->
  tally_file t f = Raise e.
Proof.
  unfold wf_record, confidence_text, tally_file, dict_get.
  destruct (dict_lookup f "properties") as [[| | | |?|props]|];
    try discriminate. simpl. unfold dict_get.
  destruct (dict_lookup props "categories") as [[| | |c| |]|];
    try discriminate; simpl;
    destruct (dict_lookup props "overall_confidence") as [[| | |s'| |]|];
    try discriminate; intros _ [= ->] He; simpl; now rewrite He.
Qed.

(** The aggregator raises the exception of [int] on the first record whose
    confidence [int] rejects. *)
Lemma report_raises_on_first_unparseable now before f after s e :
  Forall (fun f => wf_record f = true /\ confidence_parses f = true) before ->
  wf_record f = true ->
  confidence_text f = Some s ->
  int_of_str s = Raise e ->
  _generate_markdown_report now (before ++ f :: after)%list = Raise e.
Proof.
  intros Hall Hwf Ht He. unfold _generate_markdown_report.
  assert (H : forall t h m l,
    confidence_levels t = levels h m l ->
    tally_files t (before ++ f :: after)%list = Raise e).
  { clear now. induction before as [|g before IH]; intros t h m l Hl.
    - simpl. now rewrite (tally_file_unparseable t f s e).
    - inversion Hall as [|? ? [Hg Hp] Hall']; subst.
      destruct (record_confidence_parses g Hg Hp) as [c Hc].
      simpl. rewrite (tally_file_returns t g h m l c Hl Hg Hc). simpl.
      eapply IH; auto. reflexivity. }
  now rewrite (H empty_tally 0 0 0 eq_refl).
Qed.

(** ** Rendering *)

Lemma append_assoc (a b c : string) : (a ++ b) ++ c = a ++ b ++ c.
Proof. induction a as [|x a IH]; simpl; congruence. Qed.

Lemma append_empty_r (a : string) : a ++ "" = a.
Proof. induction a as [|x a IH]; simpl; congruence. Qed.

Lemma join_app sep (xs ys : list string) :
  xs <> [] -> ys <> [] ->
  join sep (xs ++ ys) = join sep xs ++ sep ++ join sep ys.
Proof.
  intros Hx Hy. induction xs as [|x xs IH]; [contradiction|].
  destruct xs as [|x' xs].
  - simpl. destruct ys; [contradiction|]. reflexivity.
  - change (join sep ((x :: x' :: xs) ++ ys))
      with (x ++ sep ++ join sep ((x' :: xs) ++ ys)).
    rewrite IH by discriminate.
    change (join sep (x :: x' :: xs)) with (x ++ sep ++ join sep (x' :: xs)).
    now rewrite !append_assoc.
Qed.

(** The aggregator returns on records of the specification whose confidences
    [int] accepts. *)
Lemma report_returns now files :
  Forall (fun f => wf_record f = true /\ confidence_parses f = true) files ->
  exists text, _generate_markdown_report now files = Ok text.
Proof.
  intros Hall.
  destruct (tally_files_returns files empty_tally 0 0 0 eq_refl Hall) as [t Ht].
  unfold _generate_markdown_report. rewrite Ht. simpl. eauto.
Qed.

(** The text of a report, from the tallies of its loop. *)
Lemma report_text now files text :
  _generate_markdown_report now files = Ok text ->
  exists t,
    tally_files empty_tally files = Ok t
    /\ text =
       join nl
         (app [ "# Document Classification Report";
                nl ++ "Generated: " ++ now;
                nl ++ "Total Documents: " ++ str_of_int (len files);
                nl ++ "## Summary";
                nl ++ "### Categories" ]
            (app (map tally_line (categories t))
               ((nl ++ "### Confidence Levels")
                :: map tally_line (confidence_levels t)))).
Proof.
  unfold _generate_markdown_report. intros H. inv_bind H.
  injection H as <-. exists a. split; auto.
Qed.

(** ** C1: the aggregator on malformed records *)

(** C1, as stated, fails: on a record of the specification whose
    [overall_confidence] is the text [abc], the aggregator raises the
    [ValueError] of [int] instead of counting the record as LOW. *)
Lemma report_raises_on_unparseable_confidence :
  wf_record unparseable_record = true
  /\ confidence_text unparseable_record = Some "abc"
  /\ _generate_markdown_report "2025-03-18T00:00:00" [unparseable_record] =
     Raise (Exc ValueError "invalid literal for int() with base 10: 'abc'").
Proof. repeat split. Qed.

(** C1, amended: on records of the specification whose [overall_confidence],
    when present, is a text that [int] accepts, the aggregator returns a
    report; a record without [overall_confidence] is counted with confidence
    0, in LOW and only there, and a record whose [categories] is missing or
    empty leaves the category tally as it was. *)
Theorem report_returns_when_confidences_parse now files :
  Forall (fun f => wf_record f = true /\ confidence_parses f = true) files ->
  (exists text, _generate_markdown_report now files = Ok text)
  /\ forall f t h m l,
       In f files ->
       confidence_levels t = levels h m l ->
       exists t',
         tally_file t f = Ok t'
         /\ (confidence_text f = None ->
             record_confidence f = Ok 0
             /\ confidence_levels t' = levels h m (l + 1))
         /\ (categories_text f = None \/ categories_text f = Some "" ->
             categories t' = categories t).
Proof.
  intros Hall. split.
  - now apply report_returns.
  - intros f t h m l Hin Hl.
    rewrite Forall_forall in Hall. destruct (Hall f Hin) as [Hwf Hp].
    destruct (record_confidence_parses f Hwf Hp) as [c Hc].
    rewrite (tally_file_returns t f h m l c Hl Hwf Hc).
    eexists. split; [reflexivity|]. simpl. split.
    + intros Hnone. rewrite record_confidence_wf, Hnone in Hc by assumption.
      injection Hc as <-. rewrite record_confidence_wf, Hnone by assumption.
      split; auto. unfold hit; simpl. now rewrite !Z.add_0_r.
    + intros Hcat. now rewrite (category_tokens_empty f Hcat).
Qed.

(** ** C2: the thresholds of the buckets *)

(** C2: when the loop body meets a record whose [overall_confidence] reads as
    the integer [c], it adds one to the bucket that the thresholds give for
    [c] (HIGH from 90, MEDIUM from 70 to 89, LOW below 70) and leaves the two
    other buckets as they were; 90 falls in HIGH, 70 in MEDIUM, 69 in LOW. *)
Theorem confidence_bucket_thresholds t h m l f c :
  confidence_levels t = levels h m l ->
  wf_record f = true ->
  record_confidence f = Ok c ->
  (exists t' level,
     tally_file t f = Ok t'
     /\ bucket c level
     /\ map fst (confidence_levels t') = ["HIGH"; "MEDIUM"; "LOW"]
     /\ forall k, level_count t' k =
                  level_count t k + (if String.eqb k level then 1 else 0))
  /\ level_of 90 = "HIGH" /\ level_of 70 = "MEDIUM" /\ level_of 69 = "LOW".
Proof.
  intros Hl Hwf Hc. split; [|repeat split].
  rewrite (tally_file_returns t f h m l c Hl Hwf Hc).
  exists {| categories := fold_left count_category (category_tokens f) (categories t);
            confidence_levels :=
              levels (h + hit "HIGH" c) (m + hit "MEDIUM" c) (l + hit "LOW" c) |},
         (level_of c).
  split; [reflexivity|]. split; [apply level_of_bucket|]. split; [reflexivity|].
  intros k. unfold level_count, dict_get. rewrite Hl. cbn -[String.eqb level_of].
  unfold hit.
  destruct (level_of_cases c) as [E|[E|E]]; rewrite E;
    destruct (String.eqb "HIGH" k) eqn:E1;
    destruct (String.eqb "MEDIUM" k) eqn:E2;
    destruct (String.eqb "LOW" k) eqn:E3;
    try apply String.eqb_eq in E1; try apply String.eqb_eq in E2;
    try apply String.eqb_eq in E3; subst; try discriminate;
    try (rewrite String.eqb_sym, E1); try (rewrite String.eqb_sym, E2);
    try (rewrite String.eqb_sym, E3); cbn; lia.
Qed.

(** ** C3: the category tally *)

(** C3: the loop returns its tallies on records of the specification whose
    confidences [int] accepts; and whenever it returns, the count of every
    token in the category tally is the number of its occurrences as a
    non-empty token of the comma-separated [categories] of the records,
    repetitions included; a token is a key of the tally exactly when it
    occurs; no key is repeated; the counts add up to the number of tokens;
    and a record whose [categories] is missing or empty has no token. *)
Theorem category_tally_counts files :
  (Forall (fun f => wf_record f = true /\ confidence_parses f = true) files ->
   exists t, tally_files empty_tally files = Ok t)
  /\ forall t,
       tally_files empty_tally files = Ok t ->
       (forall tok, dict_get (categories t) tok 0 = token_count tok files)
       /\ (forall tok, dict_lookup (categories t) tok = None <->
                       token_count tok files = 0)
       /\ NoDup (map fst (categories t))
       /\ total (categories t) = len (flat_map category_tokens files)
       /\ (forall f, categories_text f = None \/ categories_text f = Some "" ->
                     forall tok, token_count tok [f] = 0).
Proof.
  split; [apply (tally_files_returns files empty_tally 0 0 0 eq_refl)|].
  intros t H.
  destruct (tally_files_Ok files empty_tally t 0 0 0 eq_refl H) as (_ & Hc & _).
  assert (Hne : forall x, In x (flat_map category_tokens files) -> x <> "").
  { intros x Hx. apply in_flat_map in Hx. destruct Hx as (f & _ & Hx).
    eapply category_tokens_nonempty; eauto. }
  rewrite Hc. simpl categories. repeat split.
  - intros tok. now rewrite fold_count_category_get.
  - rewrite fold_count_category_lookup by assumption. intros [_ Hn].
    unfold token_count.
    rewrite (proj1 (count_occ_not_In string_dec _ _) Hn). reflexivity.
  - intros Hz. rewrite fold_count_category_lookup by assumption.
    split; auto. apply (count_occ_not_In string_dec).
    unfold token_count in Hz. lia.
  - apply fold_count_category_NoDup. constructor.
  - rewrite fold_count_category_total by assumption. reflexivity.
  - intros f Hf tok. unfold token_count. simpl.
    now rewrite (category_tokens_empty f Hf).
Qed.

(** ** C4: the total *)

(** C4: the aggregator returns a report on records of the specification
    whose confidences [int] accepts; and whenever it returns one, the report
    opens with its title, the time of generation, and the line
    [Total Documents:] followed by the length of the input in decimal. *)
Theorem report_total_is_input_length now files :
  (Forall (fun f => wf_record f = true /\ confidence_parses f = true) files ->
   exists text, _generate_markdown_report now files = Ok text)
  /\ forall text,
       _generate_markdown_report now files = Ok text ->
       exists rest,
         text =
         "# Document Classification Report" ++ nl
         ++ nl ++ "Generated: " ++ now ++ nl
         ++ nl ++ "Total Documents: "
         ++ str_of_int (Z.of_nat (length files)) ++ nl
         ++ nl ++ "## Summary" ++ nl
         ++ rest.
Proof.
  split; [apply report_returns|].
  intros text H. apply report_text in H. destruct H as (t & _ & ->).
  eexists. cbn [app]. cbn [join]. rewrite !append_assoc. unfold len.
  cbn [String.append]. reflexivity.
Qed.

(** ** C5: the confidence tally is a partition *)

(** C5: the loop returns its tallies on records of the specification whose
    confidences [int] accepts; and whenever it returns, the confidence tally
    holds, for HIGH, MEDIUM and LOW in this order, the number of records that
    fall in each bucket; every record falls in one bucket and in no other;
    and the three counts add up to the number of records. *)
Theorem confidence_tally_partitions files :
  (Forall (fun f => wf_record f = true /\ confidence_parses f = true) files ->
   exists t, tally_files empty_tally files = Ok t)
  /\ forall t,
       tally_files empty_tally files = Ok t ->
       confidence_levels t =
         levels (count_level "HIGH" files) (count_level "MEDIUM" files)
                (count_level "LOW" files)
       /\ (forall f, In f files ->
             exists level,
               In level ["HIGH"; "MEDIUM"; "LOW"]
               /\ counted_in level f = true
               /\ forall level', counted_in level' f = true -> level' = level)
       /\ level_count t "HIGH" + level_count t "MEDIUM" + level_count t "LOW"
          = len files.
Proof.
  split; [apply (tally_files_returns files empty_tally 0 0 0 eq_refl)|].
  intros t H.
  destruct (tally_files_Ok files empty_tally t 0 0 0 eq_refl H) as (Hl & _ & Hc).
  simpl in Hl. split; [exact Hl|]. split.
  - intros f Hin. rewrite Forall_forall in Hc. destruct (Hc f Hin) as [c Hf].
    exists (level_of c). unfold counted_in. rewrite Hf. repeat split.
    + destruct (level_of_cases c) as [E|[E|E]]; rewrite E; simpl; auto.
    + apply String.eqb_refl.
    + intros level' Hl'. apply String.eqb_eq in Hl'. auto.
  - unfold level_count. rewrite Hl. cbn.
    clear H Hl. induction files as [|f files IH]; [reflexivity|].
    inversion Hc as [|? ? [c Hf] Hc']; subst.
    rewrite !(count_level_cons _ f files c Hf).
    specialize (IH Hc'). pose proof (hit_sum c). unfold len in *.
    simpl length. lia.
Qed.

(** ** C6: the confidence lines of the report *)

(** C6: the aggregator returns a report on records of the specification
    whose confidences [int] accepts; and whenever it returns one, the report
    ends with the heading [### Confidence Levels] and the three lines of
    HIGH, MEDIUM and LOW, in this order, each with the number of records in
    its bucket, zero included. *)
Theorem report_lists_three_confidence_levels now files :
  (Forall (fun f => wf_record f = true /\ confidence_parses f = true) files ->
   exists text, _generate_markdown_report now files = Ok text)
  /\ forall text,
       _generate_markdown_report now files = Ok text ->
       exists head,
         text =
         head ++ nl
         ++ nl ++ "### Confidence Levels" ++ nl
         ++ "- HIGH: " ++ str_of_int (count_level "HIGH" files) ++ nl
         ++ "- MEDIUM: " ++ str_of_int (count_level "MEDIUM" files) ++ nl
         ++ "- LOW: " ++ str_of_int (count_level "LOW" files).
Proof.
  split; [apply report_returns|].
  intros text H. apply report_text in H. destruct H as (t & Ht & ->).
  destruct (tally_files_Ok files empty_tally t 0 0 0 eq_refl Ht) as (Hl & _ & _).
  simpl in Hl. rewrite Hl. rewrite app_assoc, join_app; [|discriminate|discriminate].
  eexists. f_equal.
Qed.

(** ** JSON text read back *)

Lemma skip_ws_spaces n s : skip_ws (spaces n ++ s) = skip_ws s.
Proof. induction n; simpl; auto. Qed.

Lemma skip_ws_newline_indent indent level s :
  skip_ws (newline_indent indent level ++ s) = skip_ws s.
Proof.
  unfold newline_indent. rewrite append_assoc. simpl. apply skip_ws_spaces.
Qed.

Lemma scanstring_escape_char c s :
  scanstring (escape_char c ++ s) =
  match scanstring s with
  | Some (text, rest) => Some (String c text, rest)
  | None => None
  end.
Proof.
  destruct c as [[] [] [] [] [] [] [] []]; reflexivity.
Qed.

Lemma scanstring_json_escape s rest :
  scanstring (json_escape s ++ String dquote rest) = Some (s, rest).
Proof.
  induction s as [|c s IH]; [reflexivity|].
  cbn [json_escape]. rewrite append_assoc, scanstring_escape_char, IH.
  reflexivity.
Qed.

(** *** Numbers *)

Lemma str_of_int_pos p : str_of_int (Zpos p) = digits_of p.
Proof.
  unfold str_of_int, digits_of. simpl.
  pose proof (DecimalPos.Unsigned.to_uint_nonnil p) as H.
  unfold NilZero.string_of_uint. now destruct (Pos.to_uint p).
Qed.

Lemma str_of_int_neg p : str_of_int (Zneg p) = String "-" (digits_of p).
Proof.
  unfold str_of_int, digits_of. simpl.
  pose proof (DecimalPos.Unsigned.to_uint_nonnil p) as H.
  unfold NilZero.string_of_uint. now destruct (Pos.to_uint p).
Qed.

Lemma scan_digits_digit c k acc n s :
  digit_val c = Some k ->
  scan_digits false acc n (String c s) =
  scan_digits false (10 * acc + k) (S n) s.
Proof.
  intros H. cbn [scan_digits]. rewrite H.
  destruct (Ascii.eqb_spec c "_") as [->|_]; [discriminate H|reflexivity].
Qed.

Ltac scan_digit :=
  match goal with
  | |- scan_digits false ?acc ?n (String ?c ?s) = _ =>
      let k := eval vm_compute in (Z.of_N (N_of_ascii c) - 48) in
      rewrite (scan_digits_digit c k acc n s eq_refl)
  end.

Lemma scan_digits_acc d : forall acc n,
  scan_digits false (Zpos acc) n (NilEmpty.string_of_uint d) =
  Some (Zpos (Pos.of_uint_acc d acc), (n + Decimal.nb_digits d)%nat, false, "").
Proof.
  induction d; intros acc n; cbn [NilEmpty.string_of_uint Decimal.nb_digits];
    [cbn; now rewrite Nat.add_0_r|..];
    scan_digit; rewrite <- Nat.add_succ_comm;
    cbn [Pos.of_uint_acc]; rewrite <- IHd; f_equal; lia.
Qed.

Lemma scan_digits_uint d : forall n,
  scan_digits false 0 n (NilEmpty.string_of_uint d) =
  Some (Z.of_N (Pos.of_uint d), (n + Decimal.nb_digits d)%nat, false, "").
Proof.
  induction d; intros n; cbn [NilEmpty.string_of_uint Decimal.nb_digits];
    [cbn; now rewrite Nat.add_0_r|..];
    scan_digit; rewrite <- Nat.add_succ_comm; cbn [Pos.of_uint Z.of_N];
    [apply IHd|..]; rewrite <- scan_digits_acc; reflexivity.
Qed.

Lemma scan_digits_pos p :
  scan_digits false 0 0 (digits_of p) =
  Some (Zpos p, String.length (digits_of p), false, "").
Proof.
  unfold digits_of. rewrite scan_digits_uint, DecimalPos.Unsigned.of_to.
  simpl. repeat f_equal.
  generalize (Pos.to_uint p). induction u; simpl; congruence.
Qed.

Lemma nzhead_not_D0 d d' : Decimal.nzhead d <> Decimal.D0 d'.
Proof. induction d; simpl; auto; discriminate. Qed.

Lemma to_uint_not_D0 p d : Pos.to_uint p <> Decimal.D0 d.
Proof.
  intros E.
  pose proof (DecimalPos.Unsigned.to_of (Pos.to_uint p)) as H.
  rewrite DecimalPos.Unsigned.of_to in H. simpl in H. rewrite E in H.
  unfold Decimal.unorm in H. simpl in H.
  destruct (Decimal.nzhead d) eqn:Ed;
    try (symmetry in H; rewrite <- Ed in H; exact (nzhead_not_D0 _ _ H)).
  injection H as ->.
  exact (DecimalPos.Unsigned.to_uint_nonzero p E).
Qed.

(** The digits of a positive number: a first digit that is not zero, then
    digits. *)
Lemma digits_of_head p :
  exists c r,
    digits_of p = String c r /\ is_digit c = true /\ Ascii.eqb c "0" = false.
Proof.
  unfold digits_of.
  pose proof (to_uint_not_D0 p) as H0.
  pose proof (DecimalPos.Unsigned.to_uint_nonnil p) as Hn.
  destruct (Pos.to_uint p); simpl;
    try (do 2 eexists; repeat split; reflexivity).
  - contradiction.
  - exfalso. eapply H0. reflexivity.
Qed.

Lemma is_digit_head c :
  is_digit c = true ->
  is_space c = false /\ Ascii.eqb c "+" = false /\ Ascii.eqb c "-" = false
  /\ Ascii.eqb c "_" = false.
Proof.
  destruct c as [[] [] [] [] [] [] [] []]; cbn; intros H;
    try discriminate H; repeat split.
Qed.

Lemma int_of_str_digits p :
  int_in_range (Zpos p) = true ->
  int_of_str (digits_of p) = Ok (Zpos p)
  /\ int_of_str (String "-" (digits_of p)) = Ok (Zneg p).
Proof.
  unfold int_in_range. simpl Z.abs. rewrite str_of_int_pos. intros Hr.
  apply Nat.leb_le in Hr.
  destruct (digits_of_head p) as (c & r & E & Hd & _).
  destruct (is_digit_head c Hd) as (Hs & Hplus & Hminus & Hus).
  assert (Hlim : ((640 <? String.length (digits_of p))%nat
                  && (0 <? int_max_str_digits)%nat
                  && (int_max_str_digits <? String.length (digits_of p))%nat)
                 = false).
  { apply andb_false_intro2. apply Nat.ltb_ge. exact Hr. }
  assert (Hlen : (String.length (digits_of p) =? 0)%nat = false).
  { rewrite E. reflexivity. }
  assert (Hshape : starts_with "_" (digits_of p) = false).
  { rewrite E. exact Hus. }
  split.
  - unfold int_of_str.
    assert (Hl : lstrip (digits_of p) = digits_of p).
    { rewrite E. simpl. now rewrite Hs. }
    rewrite Hl.
    assert (Hp : starts_with "+" (digits_of p) = false) by (rewrite E; exact Hplus).
    assert (Hm : starts_with "-" (digits_of p) = false) by (rewrite E; exact Hminus).
    rewrite Hp, Hm. cbn [orb]. rewrite Hshape, scan_digits_pos, Hlim, Hlen.
    reflexivity.
  - unfold int_of_str.
    change (lstrip (String "-" (digits_of p))) with (String "-" (digits_of p)).
    cbn [starts_with tail]. cbn [Ascii.eqb Bool.eqb orb andb].
    rewrite Hshape, scan_digits_pos, Hlim, Hlen. reflexivity.
Qed.

Lemma delimited_span rest :
  delimited rest = true ->
  span_digits rest = ("", rest)
  /\ starts_with "." rest || starts_with "e" rest || starts_with "E" rest = false.
Proof.
  destruct rest as [|c rest]; [auto|]. unfold delimited. cbn.
  destruct (is_digit c), (Ascii.eqb c "."), (Ascii.eqb c "e"), (Ascii.eqb c "E");
    cbn; intros H; try discriminate H; auto.
Qed.

Lemma span_digits_digit c s :
  is_digit c = true ->
  span_digits (String c s) = (String c (fst (span_digits s)), snd (span_digits s)).
Proof.
  intros H. cbn [span_digits]. rewrite H. now destruct (span_digits s).
Qed.

Lemma span_digits_uint d rest :
  delimited rest = true ->
  span_digits (NilEmpty.string_of_uint d ++ rest) =
  (NilEmpty.string_of_uint d, rest).
Proof.
  intros Hr.
  induction d; cbn [NilEmpty.string_of_uint];
    [apply (delimited_span rest Hr)|..];
    cbn [String.append]; rewrite span_digits_digit by reflexivity;
    rewrite IHd; reflexivity.
Qed.

Lemma scan_number_str_of_int z rest :
  int_in_range z = true ->
  delimited rest = true ->
  scan_number (str_of_int z ++ rest) = Some (z, rest).
Proof.
  intros Hz Hr. destruct (delimited_span rest Hr) as [Hspan Hfrac].
  destruct z as [|p|p].
  - change (str_of_int 0) with "0". unfold scan_number.
    cbn [String.append starts_with tail]. cbn [Ascii.eqb Bool.eqb andb].
    cbn [span_digits]. change (is_digit "0") with true. cbv iota.
    rewrite Hspan. cbn [starts_with String.length Nat.ltb Nat.leb andb orb].
    rewrite Hfrac. reflexivity.
  - rewrite str_of_int_pos.
    destruct (int_of_str_digits p Hz) as [Hpos _].
    destruct (digits_of_head p) as (c & r & E & Hd & H0).
    destruct (is_digit_head c Hd) as (_ & _ & Hminus & _).
    unfold scan_number.
    assert (Hm : starts_with "-" (digits_of p ++ rest) = false).
    { rewrite E. exact Hminus. }
    rewrite Hm. unfold digits_of at 1. rewrite span_digits_uint by assumption.
    fold (digits_of p).
    assert (Hz0 : starts_with "0" (digits_of p) = false) by (rewrite E; exact H0).
    rewrite Hz0, Hfrac. cbn [andb orb]. cbn [String.append]. rewrite Hpos.
    rewrite E. reflexivity.
  - rewrite str_of_int_neg.
    assert (Hz' : int_in_range (Zpos p) = true) by exact Hz.
    destruct (int_of_str_digits p Hz') as [_ Hneg].
    destruct (digits_of_head p) as (c & r & E & Hd & H0).
    unfold scan_number.
    cbn [String.append starts_with tail]. cbn [Ascii.eqb Bool.eqb andb].
    unfold digits_of at 1. rewrite span_digits_uint by assumption.
    fold (digits_of p).
    assert (Hz0 : starts_with "0" (digits_of p) = false) by (rewrite E; exact H0).
    rewrite Hz0, Hfrac. cbn [andb orb]. cbn [String.append]. rewrite Hneg.
    rewrite E. reflexivity.
Qed.

(** *** Values *)

Lemma dict_set_fresh {V} (d : dict V) k v :
  existsb (String.eqb k) (map fst d) = false ->
  dict_set d k v = (d ++ [(k, v)])%list.
Proof.
  induction d as [|[k' v'] d IH]; simpl; auto.
  rewrite (String.eqb_sym k k').
  destruct (String.eqb k' k); simpl; [discriminate|].
  intros H. now rewrite IH.
Qed.

Lemma existsb_app_false {A} (f : A -> bool) l1 l2 :
  existsb f (l1 ++ l2) = false <-> existsb f l1 = false /\ existsb f l2 = false.
Proof. rewrite existsb_app. apply orb_false_iff. Qed.

Lemma dict_of_pairs_distinct {V} (pairs : list (string * V)) :
  distinct (map fst pairs) = true -> dict_of_pairs pairs = pairs.
Proof.
  unfold dict_of_pairs.
  assert (H : forall acc : dict V,
    distinct (map fst pairs) = true ->
    (forall k, In k (map fst pairs) ->
               existsb (String.eqb k) (map fst acc) = false) ->
    fold_left (fun d kv => dict_set d (fst kv) (snd kv)) pairs acc =
    (acc ++ pairs)%list).
  { induction pairs as [|[k v] pairs IH]; intros acc Hd Hfresh; simpl.
    - now rewrite app_nil_r.
    - simpl in Hd. apply andb_true_iff in Hd. destruct Hd as [Hk Hd].
      apply negb_true_iff in Hk.
      rewrite dict_set_fresh by (apply Hfresh; now left).
      rewrite IH; auto.
      + now rewrite <- app_assoc.
      + intros k' Hin. rewrite map_app. apply existsb_app_false. split.
        * apply Hfresh. now right.
        * simpl. rewrite orb_false_r.
          destruct (String.eqb k' k) eqn:E; auto.
          apply String.eqb_eq in E. subst k'.
          assert (existsb (String.eqb k) (map fst pairs) = true); [|congruence].
          apply existsb_exists. exists k. split; auto. apply String.eqb_refl. }
  intros Hd. apply (H [] Hd). reflexivity.
Qed.

Lemma str_of_int_head z :
  exists c r,
    str_of_int z = String c r /\ (is_digit c = true \/ c = "-"%char).
Proof.
  destruct z as [|p|p].
  - exists "0"%char, "". auto.
  - rewrite str_of_int_pos. destruct (digits_of_head p) as (c & r & E & Hd & _).
    eauto.
  - rewrite str_of_int_neg. eauto.
Qed.

Lemma scan_once_numeric c r fuel :
  is_digit c = true \/ c = "-"%char ->
  scan_once (S fuel) (String c r) =
  match scan_number (String c r) with
  | Some (z, rest) => Some (VInt z, rest)
  | None => None
  end.
Proof.
  destruct c as [[] [] [] [] [] [] [] []]; intros [H|H];
    try discriminate H; reflexivity.
Qed.

Lemma numeric_head c :
  is_digit c = true \/ c = "-"%char ->
  is_ws c = false /\ Ascii.eqb c "]" = false.
Proof.
  destruct c as [[] [] [] [] [] [] [] []]; intros [H|H];
    try discriminate H; split; reflexivity.
Qed.

Lemma encode_list indent level x l :
  json_encode indent level (VList (x :: l)) =
  "[" ++ newline_indent indent (S level)
  ++ join (separator indent (S level))
       (map (json_encode indent (S level)) (x :: l))
  ++ newline_indent indent level ++ "]".
Proof. reflexivity. Qed.

Lemma encode_dict indent level kv d :
  json_encode indent level (VDict (kv :: d)) =
  "{" ++ newline_indent indent (S level)
  ++ join (separator indent (S level))
       (map (encode_member indent (S level)) (kv :: d))
  ++ newline_indent indent level ++ "}".
Proof. reflexivity. Qed.

(** An encoded value starts with a character that is neither white space
    nor a closing bracket. *)
Lemma encode_head indent level v rest :
  exists c r,
    json_encode indent level v ++ rest = String c r
    /\ is_ws c = false /\ Ascii.eqb c "]" = false.
Proof.
  destruct v as [|[]|z|s|[|x l]|[|kv d]];
    try (do 2 eexists; split; [reflexivity|split; reflexivity]).
  destruct (str_of_int_head z) as (c & r & E & Hc).
  destruct (numeric_head c Hc) as [H1 H2].
  exists c, (r ++ rest). cbn [json_encode]. rewrite E. auto.
Qed.

(** The equations of the scanner. *)

Lemma scan_once_string fuel r :
  scan_once (S fuel) (String dquote r) =
  match scanstring r with
  | Some (text, rest) => Some (VStr text, rest)
  | None => None
  end.
Proof. reflexivity. Qed.

Lemma scan_once_array fuel r :
  scan_once (S fuel) (String "[" r) =
  match skip_ws r with
  | String c' r' =>
      if Ascii.eqb c' "]" then Some (VList [], r')
      else
        match parse_elements fuel (String c' r') with
        | Some (items, rest) => Some (VList items, rest)
        | None => None
        end
  | "" => None
  end.
Proof. reflexivity. Qed.

Lemma scan_once_object fuel r :
  scan_once (S fuel) (String "{" r) =
  match skip_ws r with
  | String c' r' =>
      if Ascii.eqb c' "}" then Some (VDict [], r')
      else
        match parse_members fuel (String c' r') with
        | Some (pairs, rest) => Some (VDict (dict_of_pairs pairs), rest)
        | None => None
        end
  | "" => None
  end.
Proof. reflexivity. Qed.

Lemma parse_elements_eq fuel s :
  parse_elements (S fuel) s =
  match scan_once fuel s with
  | Some (v, r) =>
      match skip_ws r with
      | String c r' =>
          if Ascii.eqb c "]" then Some ([v], r')
          else if Ascii.eqb c "," then
            match parse_elements fuel (skip_ws r') with
            | Some (items, rest) => Some (v :: items, rest)
            | None => None
            end
          else None
      | "" => None
      end
  | None => None
  end.
Proof. reflexivity. Qed.

Lemma parse_members_eq fuel r :
  parse_members (S fuel) (String dquote r) =
  match scanstring r with
  | Some (key, r1) =>
      match skip_ws r1 with
      | String c2 r2 =>
          if Ascii.eqb c2 ":" then
            match scan_once fuel (skip_ws r2) with
            | Some (v, r3) =>
                match skip_ws r3 with
                | String c4 r4 =>
                    if Ascii.eqb c4 "}" then Some ([(key, v)], r4)
                    else if Ascii.eqb c4 "," then
                      match parse_members fuel (skip_ws r4) with
                      | Some (pairs, rest) => Some ((key, v) :: pairs, rest)
                      | None => None
                      end
                    else None
                | "" => None
                end
            | None => None
            end
          else None
      | "" => None
      end
  | None => None
  end.
Proof. reflexivity. Qed.

Lemma skip_ws_encode indent level v rest :
  skip_ws (json_encode indent level v ++ rest) =
  json_encode indent level v ++ rest.
Proof.
  destruct (encode_head indent level v rest) as (c & r & -> & Hws & _).
  simpl. now rewrite Hws.
Qed.

Lemma delimited_newline_indent indent level s :
  delimited (newline_indent indent level ++ s) = true.
Proof. reflexivity. Qed.

Section Items.
Variables indent level closing : nat.

#[local] Abbreviation sep := (separator indent level).

Lemma join_encode_cons x y l rest :
  join sep (map (json_encode indent level) (x :: y :: l)) ++ rest =
  json_encode indent level x
  ++ String "," (newline_indent indent level
                 ++ join sep (map (json_encode indent level) (y :: l)) ++ rest).
Proof.
  cbn [map]. 
  change (join sep (json_encode indent level x :: json_encode indent level y
                    :: map (json_encode indent level) l))
    with (json_encode indent level x ++ sep
          ++ join sep (json_encode indent level y
                       :: map (json_encode indent level) l)).
  unfold separator. rewrite !append_assoc. reflexivity.
Qed.

Lemma items_head l t :
  l <> [] ->
  exists c r,
    join sep (map (json_encode indent level) l) ++ t = String c r
    /\ is_ws c = false /\ Ascii.eqb c "]" = false.
Proof.
  destruct l as [|x [|y l]]; intros Hne; [contradiction|..].
  - cbn [map join]. apply encode_head.
  - rewrite join_encode_cons. apply encode_head.
Qed.

Lemma parse_elements_encode l :
  Forall (scans indent level) l -> l <> [] ->
  forall rest fuel,
    (items_weight l <= fuel)%nat ->
    parse_elements fuel
      (join sep (map (json_encode indent level) l)
       ++ newline_indent indent closing ++ String "]" rest)
    = Some (l, rest).
Proof.
  induction l as [|x l IH]; intros Hall Hne rest fuel Hfuel; [contradiction|].
  inversion Hall as [|? ? Hx Hl]; subst.
  destruct fuel as [|fuel]; [simpl in Hfuel; lia|].
  cbn [items_weight fold_right] in Hfuel. fold (items_weight l) in Hfuel.
  rewrite parse_elements_eq.
  destruct l as [|y l].
  - cbn [map join].
    rewrite Hx; [|apply delimited_newline_indent|lia].
    rewrite skip_ws_newline_indent. reflexivity.
  - rewrite join_encode_cons.
    rewrite Hx; [|reflexivity|lia].
    cbn [skip_ws is_ws Ascii.eqb Bool.eqb orb andb].
    rewrite skip_ws_newline_indent.
    assert (Hskip : forall t,
      skip_ws (join sep (map (json_encode indent level) (y :: l)) ++ t) =
      join sep (map (json_encode indent level) (y :: l)) ++ t).
    { intros t. destruct l as [|z l].
      - cbn [map join]. apply skip_ws_encode.
      - rewrite join_encode_cons. apply skip_ws_encode. }
    rewrite Hskip, IH by (auto; try discriminate; lia). reflexivity.
Qed.

End Items.

Section Members.
Variables indent level closing : nat.

#[local] Abbreviation sep := (separator indent level).

Lemma member_shape kv rest :
  encode_member indent level kv ++ rest =
  String dquote
    (json_escape (fst kv)
     ++ String dquote
          (String ":" (String " " (json_encode indent level (snd kv) ++ rest)))).
Proof.
  unfold encode_member, json_string. cbn [String.append].
  rewrite !append_assoc. reflexivity.
Qed.

Lemma join_member_cons kv kv' d rest :
  join sep (map (encode_member indent level) (kv :: kv' :: d)) ++ rest =
  encode_member indent level kv
  ++ String "," (newline_indent indent level
                 ++ join sep (map (encode_member indent level) (kv' :: d))
                 ++ rest).
Proof.
  cbn [map].
  change (join sep (encode_member indent level kv
                    :: encode_member indent level kv'
                    :: map (encode_member indent level) d))
    with (encode_member indent level kv ++ sep
          ++ join sep (encode_member indent level kv'
                       :: map (encode_member indent level) d)).
  unfold separator. rewrite !append_assoc. reflexivity.
Qed.

Lemma members_head d t :
  d <> [] ->
  exists r, join sep (map (encode_member indent level) d) ++ t = String dquote r.
Proof.
  destruct d as [|kv [|kv' d]]; intros Hne; [contradiction|..].
  - cbn [map join]. rewrite member_shape. eauto.
  - rewrite join_member_cons, member_shape. eauto.
Qed.

Lemma parse_members_encode d :
  Forall (fun kv => scans indent level (snd kv)) d -> d <> [] ->
  forall rest fuel,
    (members_weight d <= fuel)%nat ->
    parse_members fuel
      (join sep (map (encode_member indent level) d)
       ++ newline_indent indent closing ++ String "}" rest)
    = Some (d, rest).
Proof.
  induction d as [|[k v] d IH]; intros Hall Hne rest fuel Hfuel; [contradiction|].
  inversion Hall as [|? ? Hx Hl]; subst. simpl in Hx.
  destruct fuel as [|fuel]; [simpl in Hfuel; lia|].
  cbn [members_weight fold_right snd] in Hfuel.
  fold (members_weight d) in Hfuel.
  destruct d as [|kv' d].
  - cbn [map join]. rewrite member_shape, parse_members_eq.
    cbn [fst snd]. rewrite scanstring_json_escape.
    cbn [skip_ws is_ws Ascii.eqb Bool.eqb orb andb].
    rewrite skip_ws_encode, Hx; [|apply delimited_newline_indent|lia].
    rewrite skip_ws_newline_indent. reflexivity.
  - rewrite join_member_cons, member_shape, parse_members_eq.
    cbn [fst snd]. rewrite scanstring_json_escape.
    cbn [skip_ws is_ws Ascii.eqb Bool.eqb orb andb].
    rewrite skip_ws_encode, Hx; [|reflexivity|lia].
    cbn [skip_ws is_ws Ascii.eqb Bool.eqb orb andb].
    rewrite skip_ws_newline_indent.
    assert (Hskip : forall t,
      skip_ws (join sep (map (encode_member indent level) (kv' :: d)) ++ t) =
      join sep (map (encode_member indent level) (kv' :: d)) ++ t).
    { intros t. destruct d as [|kv'' d].
      - cbn [map join]. now rewrite member_shape.
      - now rewrite join_member_cons, member_shape. }
    rewrite Hskip, IH by (auto; try discriminate; lia). reflexivity.
Qed.

End Members.

Lemma items_weight_In x l : In x l -> (weight x < items_weight l)%nat.
Proof.
  induction l as [|y l IH]; simpl; [tauto|].
  intros [->|H]; [lia|]. specialize (IH H). lia.
Qed.

Lemma members_weight_In kv d :
  In kv d -> (weight (snd kv) < members_weight d)%nat.
Proof.
  induction d as [|y d IH]; simpl; [tauto|].
  intros [->|H]; [lia|]. specialize (IH H). lia.
Qed.

Lemma weight_positive v : (1 <= weight v)%nat.
Proof. destruct v; simpl; lia. Qed.

Lemma one_char c t : String c "" ++ t = String c t.
Proof. reflexivity. Qed.

(** The scanner reads an encoded value back. *)
Lemma scan_once_encode indent n : forall v level,
  (weight v <= n)%nat -> decoded v = true -> scans indent level v.
Proof.
  induction n as [|n IH]; intros v level Hn Hdec rest fuel Hrest Hfuel.
  { pose proof (weight_positive v). lia. }
  destruct fuel as [|fuel]; [pose proof (weight_positive v); lia|].
  destruct v as [|[]|z|s|l|d]; try reflexivity.
  - cbn [json_encode].
    destruct (str_of_int_head z) as (c & r & E & Hc).
    rewrite E. cbn [String.append]. rewrite scan_once_numeric by assumption.
    change (String c (r ++ rest)) with (String c r ++ rest).
    rewrite <- E, scan_number_str_of_int; auto.
  - cbn [json_encode]. unfold json_string. cbn [String.append].
    rewrite append_assoc. cbn [String.append].
    now rewrite scan_once_string, scanstring_json_escape.
  - destruct l as [|x l]; [reflexivity|].
    rewrite encode_list, !append_assoc, (one_char "["), (one_char "]").
    rewrite scan_once_array, skip_ws_newline_indent.
    cbn [weight] in Hn, Hfuel. fold (items_weight (x :: l)) in Hn, Hfuel.
    assert (Hall : Forall (scans indent (S level)) (x :: l)).
    { apply Forall_forall. intros y Hy. apply IH.
      - pose proof (items_weight_In y _ Hy). lia.
      - cbn [decoded] in Hdec. rewrite forallb_forall in Hdec. auto. }
    pose proof (parse_elements_encode indent (S level) level (x :: l) Hall
                  ltac:(discriminate) rest fuel ltac:(lia)) as Hp.
    destruct (items_head indent (S level) (x :: l)
                (newline_indent indent level ++ String "]" rest)
                ltac:(discriminate)) as (c & r & E & Hws & Hcl).
    rewrite E in *. cbn [skip_ws]. rewrite Hws, Hcl, Hp. reflexivity.
  - destruct d as [|kv d]; [reflexivity|].
    rewrite encode_dict, !append_assoc, (one_char "{"), (one_char "}").
    rewrite scan_once_object, skip_ws_newline_indent.
    cbn [weight] in Hn, Hfuel. fold (members_weight (kv :: d)) in Hn, Hfuel.
    cbn [decoded] in Hdec. apply andb_true_iff in Hdec.
    destruct Hdec as [Hkeys Hdec].
    assert (Hall : Forall (fun kv => scans indent (S level) (snd kv)) (kv :: d)).
    { apply Forall_forall. intros y Hy. apply IH.
      - pose proof (members_weight_In y _ Hy). lia.
      - rewrite forallb_forall in Hdec. auto. }
    pose proof (parse_members_encode indent (S level) level (kv :: d) Hall
                  ltac:(discriminate) rest fuel ltac:(lia)) as Hp.
    destruct (members_head indent (S level) (kv :: d)
                (newline_indent indent level ++ String "}" rest)
                ltac:(discriminate)) as (r & E).
    change (fun kv0 : string * value =>
              json_string (fst kv0) ++ ": "
              ++ json_encode indent (S level) (snd kv0))
      with (encode_member indent (S level)) in *.
    rewrite E in *. change (skip_ws (String dquote r)) with (String dquote r).
    cbv iota. change (Ascii.eqb dquote "}") with false. cbv iota.
    rewrite Hp, dict_of_pairs_distinct by assumption. reflexivity.
Qed.

(** *** Fuel *)

Lemma length_append a b :
  String.length (a ++ b) = (String.length a + String.length b)%nat.
Proof. induction a as [|c a IH]; simpl; auto. Qed.

Lemma join_length {A} (f : A -> string) (w : A -> nat) sep l :
  (1 <= String.length sep)%nat ->
  (forall x, In x l -> (w x <= String.length (f x))%nat) ->
  (fold_right (fun x acc => S (w x + acc)) O l
   <= S (String.length (join sep (map f l))))%nat.
Proof.
  intros Hsep. induction l as [|x l IH]; intros Hw; [simpl; lia|].
  assert (Hx : (w x <= String.length (f x))%nat) by (apply Hw; now left).
  assert (IH' := IH (fun y Hy => Hw y (or_intror Hy))).
  destruct l as [|y l].
  - simpl. lia.
  - cbn [fold_right] in *. cbn [map] in *.
    change (join sep (f x :: f y :: map f l))
      with (f x ++ sep ++ join sep (f y :: map f l)).
    rewrite !length_append. lia.
Qed.

Lemma newline_indent_length indent level :
  (1 <= String.length (newline_indent indent level))%nat.
Proof. unfold newline_indent. simpl. lia. Qed.

Lemma weight_le_length indent n : forall v level,
  (weight v <= n)%nat ->
  (weight v <= String.length (json_encode indent level v))%nat.
Proof.
  induction n as [|n IH]; intros v level Hn.
  { pose proof (weight_positive v). lia. }
  destruct v as [|[]|z|s|l|d]; try (simpl; lia).
  - cbn [json_encode weight].
    destruct (str_of_int_head z) as (c & r & -> & _). simpl. lia.
  - destruct l as [|x l]; [simpl; lia|].
    rewrite encode_list, !length_append.
    pose proof (newline_indent_length indent (S level)).
    pose proof (join_length (json_encode indent (S level)) weight
                  (separator indent (S level)) (x :: l)
                  ltac:(simpl; lia)) as Hj.
    cbn [weight] in *. fold (items_weight (x :: l)) in *.
    assert (Hw : forall y, In y (x :: l) ->
      (weight y <= String.length (json_encode indent (S level) y))%nat).
    { intros y Hy. apply IH. pose proof (items_weight_In y _ Hy). lia. }
    specialize (Hj Hw). fold (items_weight (x :: l)) in Hj.
    change (String.length "[") with 1%nat. lia.
  - destruct d as [|kv d]; [simpl; lia|].
    rewrite encode_dict, !length_append.
    pose proof (newline_indent_length indent (S level)).
    pose proof (join_length (encode_member indent (S level))
                  (fun kv => weight (snd kv))
                  (separator indent (S level)) (kv :: d)
                  ltac:(simpl; lia)) as Hj.
    cbn [weight] in *. fold (members_weight (kv :: d)) in *.
    assert (Hw : forall y, In y (kv :: d) ->
      (weight (snd y)
       <= String.length (encode_member indent (S level) y))%nat).
    { intros y Hy. unfold encode_member. rewrite !length_append.
      assert (weight (snd y)
              <= String.length (json_encode indent (S level) (snd y)))%nat.
      { apply IH. pose proof (members_weight_In y _ Hy). lia. }
      lia. }
    specialize (Hj Hw). fold (members_weight (kv :: d)) in Hj.
    change (String.length "{") with 1%nat. lia.
Qed.

(** [json.loads] reads back what [json.dumps] has written. *)
Lemma json_loads_encode indent v :
  decoded v = true -> json_loads (json_encode indent 0 v) = Some v.
Proof.
  intros Hdec. unfold json_loads.
  pose proof (skip_ws_encode indent 0 v "") as Hskip.
  rewrite append_empty_r in Hskip. rewrite Hskip.
  pose proof (weight_le_length indent (weight v) v 0 (le_n _)) as Hlen.
  pose proof (scan_once_encode indent (weight v) v 0 (le_n _) Hdec ""
                (S (String.length (json_encode indent 0 v))) eq_refl
                ltac:(lia)) as Hscan.
  rewrite append_empty_r in Hscan. rewrite Hscan. reflexivity.
Qed.

Lemma json_loads_dumps indent files :
  Forall (fun f => decoded (VDict f) = true) files ->
  json_loads (json_dumps indent files) = Some (VList (map VDict files)).
Proof.
  intros Hall. apply json_loads_encode. cbn [decoded].
  apply forallb_forall. intros v Hv. apply in_map_iff in Hv.
  destruct Hv as (f & <- & Hf). rewrite Forall_forall in Hall. auto.
Qed.

(** ** C7: the structured report *)

(** C7: when [/report] is asked for the format [json] and the search
    answers with records that a JSON decoder can have produced, the report
    content is the JSON text of the list of these records, and decoding it
    gives back this list and nothing else. *)
Theorem structured_report_round_trip
    (drive : list request -> request -> py response)
    (isoformat_now : nat -> string)
    (start_date end_date : option string) (w : world) (answer : response) :
  drive (calls w) (report_request start_date end_date) = Ok answer ->
  Forall (fun f => decoded (VDict f) = true) (or_empty (files answer)) ->
  exists report w',
    get_report TokenValid drive isoformat_now "json" start_date end_date w
      = (Ok report, w')
    /\ format report = "json"
    /\ report_content report = json_dumps 2 (or_empty (files answer))
    /\ json_loads (report_content report)
       = Some (VList (map VDict (or_empty (files answer)))).
Proof.
  intros Hdrive Hdec.
  unfold get_report, get_drive_service, try_except, io_bind, io_ret, execute.
  cbn [calls]. rewrite Hdrive. cbn -[json_dumps json_loads].
  do 2 eexists. split; [reflexivity|]. cbn -[json_dumps json_loads].
  repeat split. now apply json_loads_dumps.
Qed.

(** ** The endpoints *)

Section Endpoints.
Variable config : Config.
Variable drive : list request -> request -> py response.
Variable isoformat_now : nat -> string.

Lemma skipn_length_app {A} (l l' : list A) : skipn (length l) (l ++ l')%list = l'.
Proof. induction l; simpl; auto. Qed.

Ltac run_search :=
  match goal with
  | |- context [drive ?h ?r] =>
      destruct (drive h r) eqn:?; cbn [fst snd calls clock_reads]
  end.

Ltac run :=
  cbv [serve io_map list_documents get_status get_report get_drive_service
       try_except io_bind io_lift io_ret io_raise execute now min_page_size];
  cbn [fst snd calls clock_reads].

(** What a request adds to the log is what it has sent. *)
Lemma serve_log token ep w :
  calls (snd (serve config token drive isoformat_now ep w)) =
  (calls w ++ sent config token drive isoformat_now ep w)%list.
Proof.
  unfold sent.
  assert (H : exists new,
    calls (snd (serve config token drive isoformat_now ep w)) =
    (calls w ++ new)%list).
  { destruct token; try (exists []; destruct ep; run; now rewrite app_nil_r).
    destruct ep as [fid pt [n|] ip | | fmt sd ed].
    - run. run_search; eexists; reflexivity.
    - exists []. run. now rewrite app_nil_r.
    - run. run_search; [run_search|];
        try (eexists; rewrite <- app_assoc; reflexivity);
        eexists; reflexivity.
    - run. run_search; [|eexists; reflexivity].
      destruct (String.eqb fmt "markdown"); cbn;
        [destruct (_generate_markdown_report _ _); cbn|];
        eexists; reflexivity. }
  destruct H as [new ->]. now rewrite skipn_length_app.
Qed.

(** ** C8: a failure of the Drive client *)

(** C8: on each of the three routes, when a search that the request sends
    makes the Drive client raise [e], the request ends with the
    [HTTPException] of status 500 whose detail is [str(e)]. *)
Theorem search_failure_is_http_500 token ep w i r e :
  nth_error (sent config token drive isoformat_now ep w) i = Some r ->
  drive (calls w ++ firstn i (sent config token drive isoformat_now ep w)) r
    = Raise e ->
  fst (serve config token drive isoformat_now ep w)
    = Raise (HTTPException 500 (exc_str e)).
Proof.
  unfold sent.
  destruct token.
  1-2: destruct ep; run; rewrite <- (app_nil_r (calls w)) at 2;
       rewrite skipn_length_app; destruct i; discriminate.
  destruct ep as [fid pt [n|] ip | | fmt sd ed]; run.
  - run_search; rewrite skipn_length_app;
      (destruct i as [|[|i]]; cbn; try discriminate);
      intros Hr; injection Hr as <-; rewrite app_nil_r; congruence.
  - rewrite <- (app_nil_r (calls w)) at 2.
    rewrite skipn_length_app. destruct i; discriminate.
  - run_search; [run_search|]; rewrite <- ?app_assoc, skipn_length_app;
      (destruct i as [|[|[|i]]]; cbn; try discriminate);
      intros Hr; injection Hr as <-; rewrite ?app_nil_r; congruence.
  - run_search.
    + destruct (String.eqb fmt "markdown"); cbn;
        [destruct (_generate_markdown_report _ _); cbn|];
        rewrite skipn_length_app;
        (destruct i as [|[|i]]; cbn; try discriminate);
        intros Hr; injection Hr as <-; rewrite app_nil_r; congruence.
    + rewrite skipn_length_app;
        (destruct i as [|[|i]]; cbn; try discriminate);
        intros Hr; injection Hr as <-; rewrite app_nil_r; congruence.
Qed.

(** ** C9: missing or unreadable credentials *)

(** C9: on each of the three routes, when the token file is missing or
    cannot be read, the request ends with the failure of
    [get_drive_service] (for a missing file, the [HTTPException] of status
    500 and detail [Google OAuth token not found]; otherwise the exception of
    the loader), and no search has been sent. *)
Theorem credentials_fail_before_any_search token ep w :
  token <> TokenValid ->
  exists f,
    credential_failure token = Some f
    /\ serve config token drive isoformat_now ep w = (Raise f, w)
    /\ sent config token drive isoformat_now ep w = [].
Proof.
  intros Hne. unfold sent. destruct token; [| |contradiction].
  - eexists. split; [reflexivity|]. destruct ep; run;
      (split; [destruct w; reflexivity|]);
      rewrite <- (app_nil_r (calls w)) at 2; apply skipn_length_app.
  - eexists. split; [reflexivity|]. destruct ep; run;
      (split; [destruct w; reflexivity|]);
      rewrite <- (app_nil_r (calls w)) at 2; apply skipn_length_app.
Qed.

(** ** C10: the pending count *)

(** C10: when the two searches of [/status] answer, the response carries the
    lengths of the two file lists as [total_documents] and
    [classified_count], and their difference as [pending_count], which is
    negative when there are more classified files than files in total;
    [total_documents] is the sum of the two other counts. *)
Theorem pending_is_total_minus_classified w total_response classified_response :
  drive (calls w) (total_request config) = Ok total_response ->
  drive (calls w ++ [total_request config]) classified_request
    = Ok classified_response ->
  exists status w',
    get_status config TokenValid drive isoformat_now w = (Ok status, w')
    /\ total_documents status = len (or_empty (files total_response))
    /\ classified_count status = len (or_empty (files classified_response))
    /\ pending_count status = total_documents status - classified_count status
    /\ total_documents status = classified_count status + pending_count status
    /\ (total_documents status < classified_count status ->
        pending_count status < 0).
Proof.
  intros H1 H2. run. rewrite H1. cbn. rewrite H2. cbn.
  do 2 eexists. split; [reflexivity|]. cbn. repeat split; lia.
Qed.

End Endpoints.

(** ** Instances

    The example of the specification, and each property at the sample data. *)

(** The example of the specification: category tally [a: 2, b: 1], one
    record in each bucket. *)
Example specification_example :
  tally_files empty_tally
    [ example_record "95" "a,b"; example_record "70" "a";
      example_record "50" "" ]
  = Ok {| categories := [("a", 2); ("b", 1)];
          confidence_levels := [("HIGH", 1); ("MEDIUM", 1); ("LOW", 1)] |}.
Proof. reflexivity. Qed.

(** C1 at the sample records: two with both fields, one without properties, one without confidence and with empty categories. *)
Lemma report_returns_when_confidences_parse_witness :
  Forall (fun f => wf_record f = true /\ confidence_parses f = true)
    sample_files
  /\ ((exists text, _generate_markdown_report sample_now sample_files = Ok text)
      /\ forall f t h m l,
           In f sample_files ->
           confidence_levels t = levels h m l ->
           exists t',
             tally_file t f = Ok t'
             /\ (confidence_text f = None ->
                 record_confidence f = Ok 0
                 /\ confidence_levels t' = levels h m (l + 1))
             /\ (categories_text f = None \/ categories_text f = Some "" ->
                 categories t' = categories t)).
Proof.
  assert (H : Forall (fun f => wf_record f = true /\ confidence_parses f = true)
                sample_files) by (repeat constructor).
  split; [exact H|].
  exact (report_returns_when_confidences_parse sample_now sample_files H).
Defined.

(** C2 at the first sample record, of confidence 90, from the empty tally. *)
Lemma confidence_bucket_thresholds_witness :
  confidence_levels empty_tally = levels 0 0 0
  /\ wf_record doc1 = true
  /\ record_confidence doc1 = Ok 90
  /\ ((exists t' level,
         tally_file empty_tally doc1 = Ok t'
         /\ bucket 90 level
         /\ map fst (confidence_levels t') = ["HIGH"; "MEDIUM"; "LOW"]
         /\ forall k, level_count t' k =
                      level_count empty_tally k
                      + (if String.eqb k level then 1 else 0))
      /\ level_of 90 = "HIGH" /\ level_of 70 = "MEDIUM" /\ level_of 69 = "LOW").
Proof.
  split; [reflexivity|]. split; [reflexivity|]. split; [reflexivity|].
  exact (confidence_bucket_thresholds empty_tally 0 0 0 doc1 90
           eq_refl eq_refl eq_refl).
Defined.

(** C3 at the sample records. *)
Lemma category_tally_counts_witness :
  Forall (fun f => wf_record f = true /\ confidence_parses f = true)
    sample_files
  /\ tally_files empty_tally sample_files = Ok sample_tally
  /\ (forall tok, dict_get (categories sample_tally) tok 0
                  = token_count tok sample_files)
  /\ (forall tok, dict_lookup (categories sample_tally) tok = None <->
                  token_count tok sample_files = 0)
  /\ NoDup (map fst (categories sample_tally))
  /\ total (categories sample_tally)
     = len (flat_map category_tokens sample_files)
  /\ (forall f, categories_text f = None \/ categories_text f = Some "" ->
                forall tok, token_count tok [f] = 0).
Proof.
  split; [repeat constructor|]. split; [reflexivity|].
  exact (proj2 (category_tally_counts sample_files) sample_tally eq_refl).
Defined.

(** C4 at the report on the sample records. *)
Lemma report_total_is_input_length_witness :
  Forall (fun f => wf_record f = true /\ confidence_parses f = true)
    sample_files
  /\ _generate_markdown_report sample_now sample_files = Ok sample_report
  /\ exists rest,
       sample_report =
       "# Document Classification Report" ++ nl
       ++ nl ++ "Generated: " ++ sample_now ++ nl
       ++ nl ++ "Total Documents: "
       ++ str_of_int (Z.of_nat (length sample_files)) ++ nl
       ++ nl ++ "## Summary" ++ nl
       ++ rest.
Proof.
  split; [repeat constructor|]. split; [reflexivity|].
  exact (proj2 (report_total_is_input_length sample_now sample_files)
           sample_report eq_refl).
Defined.

(** C5 at the sample records. *)
Lemma confidence_tally_partitions_witness :
  Forall (fun f => wf_record f = true /\ confidence_parses f = true)
    sample_files
  /\ tally_files empty_tally sample_files = Ok sample_tally
  /\ confidence_levels sample_tally =
       levels (count_level "HIGH" sample_files)
              (count_level "MEDIUM" sample_files)
              (count_level "LOW" sample_files)
  /\ (forall f, In f sample_files ->
        exists level,
          In level ["HIGH"; "MEDIUM"; "LOW"]
          /\ counted_in level f = true
          /\ forall level', counted_in level' f = true -> level' = level)
  /\ level_count sample_tally "HIGH" + level_count sample_tally "MEDIUM"
     + level_count sample_tally "LOW"
     = len sample_files.
Proof.
  split; [repeat constructor|]. split; [reflexivity|].
  exact (proj2 (confidence_tally_partitions sample_files) sample_tally eq_refl).
Defined.

(** C6 at the report on no record at all, where the three counts are zero. *)
Lemma report_lists_three_confidence_levels_witness :
  _generate_markdown_report sample_now [] = Ok
    ("# Document Classification Report" ++ nl
     ++ nl ++ "Generated: " ++ sample_now ++ nl
     ++ nl ++ "Total Documents: 0" ++ nl
     ++ nl ++ "## Summary" ++ nl
     ++ nl ++ "### Categories" ++ nl
     ++ nl ++ "### Confidence Levels" ++ nl
     ++ "- HIGH: 0" ++ nl ++ "- MEDIUM: 0" ++ nl ++ "- LOW: 0")
  /\ exists head,
       "# Document Classification Report" ++ nl
       ++ nl ++ "Generated: " ++ sample_now ++ nl
       ++ nl ++ "Total Documents: 0" ++ nl
       ++ nl ++ "## Summary" ++ nl
       ++ nl ++ "### Categories" ++ nl
       ++ nl ++ "### Confidence Levels" ++ nl
       ++ "- HIGH: 0" ++ nl ++ "- MEDIUM: 0" ++ nl ++ "- LOW: 0"
       = head ++ nl
         ++ nl ++ "### Confidence Levels" ++ nl
         ++ "- HIGH: " ++ str_of_int (count_level "HIGH" []) ++ nl
         ++ "- MEDIUM: " ++ str_of_int (count_level "MEDIUM" []) ++ nl
         ++ "- LOW: " ++ str_of_int (count_level "LOW" []).
Proof.
  split; [reflexivity|].
  exact (proj2 (report_lists_three_confidence_levels sample_now []) _ eq_refl).
Defined.

(** C7 at a search that answers with the two records of the tests. *)
Lemma structured_report_round_trip_witness :
  report_drive (calls sample_world) (report_request None None)
    = Ok {| files := Some [doc1; doc2]; nextPageToken := None |}
  /\ Forall (fun f => decoded (VDict f) = true) [doc1; doc2]
  /\ exists report w',
       get_report TokenValid report_drive sample_clock "json" None None
         sample_world = (Ok report, w')
       /\ format report = "json"
       /\ report_content report = json_dumps 2 [doc1; doc2]
       /\ json_loads (report_content report)
          = Some (VList (map VDict [doc1; doc2])).
Proof.
  assert (H : Forall (fun f => decoded (VDict f) = true) [doc1; doc2])
    by (repeat constructor).
  split; [reflexivity|]. split; [exact H|].
  exact (structured_report_round_trip report_drive sample_clock None None
           sample_world {| files := Some [doc1; doc2]; nextPageToken := None |}
           eq_refl H).
Defined.

(** C8 at [/documents] with a Drive client that raises [API Error]. *)
Lemma search_failure_is_http_500_witness :
  let ep := Documents None None (Some 50) false in
  let r := {| q := documents_query sample_config None false;
              spaces_ := Some "drive";
              fields := "nextPageToken, files(id, name, mimeType, createdTime, modifiedTime, owners, size)";
              pageToken := None;
              pageSize := Some 50 |} in
  let e := Exc (OtherError "Exception") "API Error" in
  nth_error (sent sample_config TokenValid failing_drive sample_clock ep
               sample_world) 0 = Some r
  /\ failing_drive
       (calls sample_world
        ++ firstn 0 (sent sample_config TokenValid failing_drive sample_clock
                       ep sample_world))%list r = Raise e
  /\ fst (serve sample_config TokenValid failing_drive sample_clock ep
            sample_world)
     = Raise (HTTPException 500 "API Error").
Proof.
  cbv zeta. split; [reflexivity|]. split; [reflexivity|].
  exact (search_failure_is_http_500 sample_config failing_drive sample_clock
           TokenValid (Documents None None (Some 50) false) sample_world 0 _
           (Exc (OtherError "Exception") "API Error") eq_refl eq_refl).
Defined.

(** C9 at [/status] without a token file. *)
Lemma credentials_fail_before_any_search_witness :
  TokenMissing <> TokenValid
  /\ exists f,
       credential_failure TokenMissing = Some f
       /\ serve sample_config TokenMissing report_drive sample_clock Status
            sample_world = (Raise f, sample_world)
       /\ sent sample_config TokenMissing report_drive sample_clock Status
            sample_world = [].
Proof.
  assert (H : TokenMissing <> TokenValid) by discriminate.
  split; [exact H|].
  exact (credentials_fail_before_any_search sample_config report_drive
           sample_clock TokenMissing Status sample_world H).
Defined.

(** C10 at the answers of [test_get_status]: three files, two of them classified. *)
Lemma pending_is_total_minus_classified_witness :
  let total_response :=
    {| files := Some [doc1; doc2; doc3]; nextPageToken := None |} in
  let classified_response :=
    {| files := Some [doc1; doc2]; nextPageToken := None |} in
  status_drive (calls sample_world) (total_request sample_config)
    = Ok total_response
  /\ status_drive (calls sample_world ++ [total_request sample_config])%list
       classified_request = Ok classified_response
  /\ exists status w',
       get_status sample_config TokenValid status_drive sample_clock
         sample_world = (Ok status, w')
       /\ total_documents status = len (or_empty (files total_response))
       /\ classified_count status = len (or_empty (files classified_response))
       /\ pending_count status
          = total_documents status - classified_count status
       /\ total_documents status
          = classified_count status + pending_count status
       /\ (total_documents status < classified_count status ->
           pending_count status < 0).
Proof.
  cbv zeta. split; [reflexivity|]. split; [reflexivity|].
  exact (pending_is_total_minus_classified sample_config status_drive
           sample_clock sample_world _ _ eq_refl eq_refl).
Defined.

(** * Further properties *)

(** ** When the aggregator returns *)

(** From tallies with the three buckets, the loop body returns exactly on
    the readable records. *)
Lemma tally_file_readable t f h m l :
  confidence_levels t = levels h m l ->
  (exists t', tally_file t f = Ok t') <-> readable f = true.
Proof.
  intros Hl. unfold tally_file, readable, dict_get.
  destruct (dict_lookup f "properties") as [[| | | |?|props]|]; simpl;
    try (split; [intros [? H]; discriminate H|discriminate]).
  - unfold dict_get.
    destruct (dict_lookup props "categories") as [[| | |s| |]|]; simpl;
      try (split; [intros [? H]; discriminate H|discriminate]);
      (destruct (dict_lookup props "overall_confidence") as [v|]; simpl;
       [destruct (py_int v) as [c|e]; simpl;
        [rewrite Hl, dict_incr_levels; simpl; split; eauto
        |split; [intros [? H]; discriminate H|discriminate]]
       |rewrite Hl, (dict_incr_levels h m l 0); simpl; split; eauto]).
  - rewrite Hl, (dict_incr_levels h m l 0). simpl. split; eauto.
Qed.

Lemma tally_file_keeps_levels t f t' h m l :
  confidence_levels t = levels h m l ->
  tally_file t f = Ok t' ->
  exists h' m' l', confidence_levels t' = levels h' m' l'.
Proof.
  intros Hl H. destruct (tally_file_Ok _ _ _ H) as (c & _ & _ & Hinc).
  rewrite Hl, dict_incr_levels in Hinc. injection Hinc as <-. eauto.
Qed.

Lemma tally_files_readable files : forall t h m l,
  confidence_levels t = levels h m l ->
  (exists t', tally_files t files = Ok t') <-> forallb readable files = true.
Proof.
  induction files as [|f files IH]; intros t h m l Hl; simpl.
  - split; eauto.
  - rewrite andb_true_iff, <- (tally_file_readable t f h m l Hl). split.
    + intros [t' H]. destruct (tally_file t f) as [t1|e] eqn:E; [|discriminate H].
      simpl in H. split; [eauto|].
      destruct (tally_file_keeps_levels _ _ _ _ _ _ Hl E) as (h' & m' & l' & Hl').
      apply (IH t1 h' m' l' Hl'). eauto.
    + intros [[t1 E] Hall]. rewrite E. simpl.
      destruct (tally_file_keeps_levels _ _ _ _ _ _ Hl E) as (h' & m' & l' & Hl').
      apply (IH t1 h' m' l' Hl'). exact Hall.
Qed.

(** X1: the aggregator returns a report exactly when every record is
    readable: its properties bag is missing or a dictionary, its [categories]
    is missing or a string, and its [overall_confidence] is missing or a value
    that [int] accepts. *)
Theorem report_returns_iff_readable now files :
  (exists text, _generate_markdown_report now files = Ok text)
  <-> forallb readable files = true.
Proof.
  rewrite <- (tally_files_readable files empty_tally 0 0 0 eq_refl).
  unfold _generate_markdown_report. split.
  - intros [text H]. destruct (tally_files empty_tally files); [eauto|discriminate H].
  - intros [t ->]. simpl. eauto.
Qed.

(** ** Batches of records *)

Lemma tally_files_app a : forall t b,
  tally_files t (a ++ b)%list = (t' <- tally_files t a ;; tally_files t' b).
Proof.
  induction a as [|f a IH]; intros t b; simpl; [reflexivity|].
  destruct (tally_file t f); simpl; auto.
Qed.

Lemma count_level_app level a b :
  count_level level (a ++ b)%list = count_level level a + count_level level b.
Proof.
  unfold count_level, len. rewrite filter_app, length_app. lia.
Qed.

Lemma token_count_app tok a b :
  token_count tok (a ++ b)%list = token_count tok a + token_count tok b.
Proof.
  unfold token_count. rewrite flat_map_app, count_occ_app. lia.
Qed.

Lemma flat_tokens_nonempty files x :
  In x (flat_map category_tokens files) -> x <> "".
Proof.
  intros Hx. apply in_flat_map in Hx. destruct Hx as (f & _ & Hx).
  eapply category_tokens_nonempty; eauto.
Qed.

(** The tallies of a loop that returns, by their counts. *)
Lemma tally_files_counts files t :
  tally_files empty_tally files = Ok t ->
  (forall level, In level ["HIGH"; "MEDIUM"; "LOW"] ->
                 level_count t level = count_level level files)
  /\ (forall tok, dict_get (categories t) tok 0 = token_count tok files)
  /\ (forall tok, dict_lookup (categories t) tok =
                  if token_count tok files =? 0 then None
                  else Some (token_count tok files)).
Proof.
  intros H.
  destruct (tally_files_Ok files empty_tally t 0 0 0 eq_refl H) as (Hl & Hc & _).
  simpl in Hl, Hc.
  assert (Hget : forall tok, dict_get (categories t) tok 0 = token_count tok files).
  { intros tok. rewrite Hc.
    rewrite fold_count_category_get by apply flat_tokens_nonempty. reflexivity. }
  split; [|split; [exact Hget|]].
  - intros level Hin. unfold level_count. rewrite Hl.
    destruct Hin as [<-|[<-|[<-|[]]]]; reflexivity.
  - intros tok. specialize (Hget tok).
    destruct (dict_lookup (categories t) tok) as [v|] eqn:E.
    + assert (Hv : v = token_count tok files).
      { unfold dict_get in Hget. now rewrite E in Hget. }
      subst v. destruct (token_count tok files =? 0) eqn:E0; [|reflexivity].
      apply Z.eqb_eq in E0. exfalso.
      rewrite Hc in E.
      assert (Hnone : dict_lookup
                (fold_left count_category (flat_map category_tokens files) [])
                tok = None).
      { apply fold_count_category_lookup; [apply flat_tokens_nonempty|].
        split; [reflexivity|]. apply (count_occ_not_In string_dec).
        unfold token_count in E0. lia. }
      congruence.
    + unfold dict_get in Hget. rewrite E in Hget. rewrite <- Hget. reflexivity.
Qed.

(** X2: when the loop returns on two batches of records, it returns on the
    two in a row, and then every bucket count and every category count is the
    sum of the counts of the two batches. *)
Theorem tallies_of_batches_add a b ta tb :
  tally_files empty_tally a = Ok ta ->
  tally_files empty_tally b = Ok tb ->
  exists t,
    tally_files empty_tally (a ++ b)%list = Ok t
    /\ (forall level, In level ["HIGH"; "MEDIUM"; "LOW"] ->
          level_count t level = level_count ta level + level_count tb level)
    /\ (forall tok, dict_get (categories t) tok 0 =
                    dict_get (categories ta) tok 0
                    + dict_get (categories tb) tok 0).
Proof.
  intros Ha Hb.
  assert (Hr : forallb readable (a ++ b) = true).
  { rewrite forallb_app. apply andb_true_iff.
    split; apply (tally_files_readable _ empty_tally 0 0 0 eq_refl); eauto. }
  apply (tally_files_readable _ empty_tally 0 0 0 eq_refl) in Hr.
  destruct Hr as [t Ht]. exists t. split; [exact Ht|].
  destruct (tally_files_counts _ _ Ha) as (Hla & Hca & _).
  destruct (tally_files_counts _ _ Hb) as (Hlb & Hcb & _).
  destruct (tally_files_counts _ _ Ht) as (Hl & Hc & _).
  split.
  - intros level Hin. rewrite Hl, Hla, Hlb by assumption. apply count_level_app.
  - intros tok. rewrite Hc, Hca, Hcb. apply token_count_app.
Qed.

(** X3: the order of the records changes neither whether the loop returns
    nor the counts: on a permutation of the records the loop returns the same
    confidence tally, and the same count for every category. *)
Theorem tallies_ignore_record_order files files' t :
  Permutation files files' ->
  tally_files empty_tally files = Ok t ->
  exists t',
    tally_files empty_tally files' = Ok t'
    /\ confidence_levels t' = confidence_levels t
    /\ forall tok, dict_lookup (categories t') tok
                   = dict_lookup (categories t) tok.
Proof.
  intros Hperm Ht.
  assert (Hr : forallb readable files' = true).
  { apply forallb_forall. intros f Hf.
    assert (Hall : forallb readable files = true).
    { apply (tally_files_readable _ empty_tally 0 0 0 eq_refl). eauto. }
    rewrite forallb_forall in Hall. apply Hall.
    eapply Permutation_in; [symmetry; exact Hperm|exact Hf]. }
  apply (tally_files_readable _ empty_tally 0 0 0 eq_refl) in Hr.
  destruct Hr as [t' Ht']. exists t'. split; [exact Ht'|].
  assert (Hlevel : forall level, count_level level files' = count_level level files).
  { intros level. unfold count_level, len. f_equal.
    clear Ht Ht'. induction Hperm; simpl; auto.
    - destruct (counted_in level x); simpl; auto.
    - destruct (counted_in level x), (counted_in level y); reflexivity.
    - congruence. }
  assert (Htok : forall tok, token_count tok files' = token_count tok files).
  { intros tok. unfold token_count. f_equal.
    apply Permutation_count_occ. apply Permutation_flat_map.
    symmetry. exact Hperm. }
  destruct (tally_files_Ok files empty_tally t 0 0 0 eq_refl Ht) as (Hl & _ & _).
  destruct (tally_files_Ok files' empty_tally t' 0 0 0 eq_refl Ht') as (Hl' & _ & _).
  split.
  - rewrite Hl, Hl'. simpl. now rewrite !Hlevel.
  - intros tok.
    destruct (tally_files_counts _ _ Ht) as (_ & _ & Hk).
    destruct (tally_files_counts _ _ Ht') as (_ & _ & Hk').
    now rewrite Hk, Hk', Htok.
Qed.

(** ** The category lines of the report *)

Lemma fold_count_category_keys toks : forall d,
  (forall x, In x toks -> x <> "") ->
  map fst (fold_left count_category toks d) = fold_left add_key toks (map fst d).
Proof.
  induction toks as [|cat toks IH]; intros d Hne; simpl; [reflexivity|].
  rewrite IH by (intros; apply Hne; now right). f_equal.
  unfold count_category, add_key.
  assert (Hc : truthy cat = true) by (apply truthy_nonempty, Hne; now left).
  rewrite Hc. apply dict_set_keys.
Qed.

Lemma dict_get_head {V} k (v : V) d default :
  dict_get ((k, v) :: d) k default = v.
Proof. unfold dict_get. simpl. now rewrite String.eqb_refl. Qed.

Lemma dict_get_tail {V} k k' (v : V) d default :
  k <> k' -> dict_get ((k, v) :: d) k' default = dict_get d k' default.
Proof.
  intros Hne. unfold dict_get. simpl.
  apply String.eqb_neq in Hne. now rewrite Hne.
Qed.

(** A dictionary is its keys, each with its value. *)
Lemma dict_by_keys (d : dict Z) :
  NoDup (map fst d) -> d = map (fun k => (k, dict_get d k 0)) (map fst d).
Proof.
  induction d as [|[k v] d IH]; intros Hnd; [reflexivity|].
  inversion Hnd as [|? ? Hk Hnd']; subst. simpl map.
  rewrite dict_get_head. f_equal.
  rewrite IH at 1 by assumption. apply map_ext_in.
  intros k' Hin. rewrite dict_get_tail; [reflexivity|].
  intros ->. contradiction.
Qed.

Lemma in_dict_lookup {V} (d : dict V) k v :
  NoDup (map fst d) -> In (k, v) d -> dict_lookup d k = Some v.
Proof.
  induction d as [|[k' v'] d IH]; intros Hnd Hin; [contradiction|].
  inversion Hnd as [|? ? Hk Hnd']; subst. simpl.
  destruct Hin as [E|Hin].
  - injection E as -> ->. now rewrite String.eqb_refl.
  - destruct (String.eqb k' k) eqn:E.
    + apply String.eqb_eq in E. subst k'. exfalso. apply Hk.
      apply in_map_iff. exists (k, v). auto.
    + auto.
Qed.

Lemma split_no_separator sep s tok :
  In tok (split sep s) -> contains sep tok = false.
Proof.
  revert tok. induction s as [|c s IH]; intros tok; simpl.
  - intros [<-|[]]. reflexivity.
  - destruct (Ascii.eqb c sep) eqn:E.
    + intros [<-|H]; [reflexivity|auto].
    + destruct (split sep s) as [|t ts] eqn:Es.
      * intros [<-|[]]. simpl. now rewrite E.
      * intros [<-|H]; [|apply IH; now right].
        simpl. rewrite E. apply IH. now left.
Qed.

Lemma category_tokens_no_comma f tok :
  In tok (category_tokens f) -> contains "," tok = false.
Proof.
  rewrite category_tokens_text. destruct (categories_text f) as [s|]; [|easy].
  intros H. apply filter_In in H. destruct H as [H _].
  eapply split_no_separator; eauto.
Qed.

(** The category tally of a loop that returns, entry by entry. *)
Lemma tally_files_categories files t :
  tally_files empty_tally files = Ok t ->
  categories t =
  map (fun tok => (tok, token_count tok files))
    (first_occurrences (flat_map category_tokens files)).
Proof.
  intros H.
  destruct (tally_files_Ok files empty_tally t 0 0 0 eq_refl H) as (_ & Hc & _).
  simpl in Hc.
  assert (Hkeys : map fst (categories t)
                  = first_occurrences (flat_map category_tokens files)).
  { rewrite Hc. apply fold_count_category_keys, flat_tokens_nonempty. }
  assert (Hnd : NoDup (map fst (categories t))).
  { rewrite Hc. apply fold_count_category_NoDup. constructor. }
  rewrite (dict_by_keys _ Hnd) at 1. rewrite Hkeys.
  apply map_ext. intros tok. f_equal.
  apply (tally_files_counts _ _ H).
Qed.

Lemma first_occurrences_In l x :
  In x (first_occurrences l) <-> In x l.
Proof.
  unfold first_occurrences.
  assert (H : forall acc, In x (fold_left add_key l acc) <-> In x acc \/ In x l).
  { induction l as [|y l IH]; intros acc; simpl; [tauto|].
    rewrite IH. unfold add_key.
    destruct (existsb (String.eqb y) acc) eqn:E.
    - apply existsb_exists in E. destruct E as (z & Hz & Ez).
      apply String.eqb_eq in Ez. subst z.
      split; [tauto|]. intros [H|[<-|H]]; auto.
    - rewrite in_app_iff. simpl. tauto. }
  rewrite H. simpl. tauto.
Qed.

(** X4: in the category tally of a loop that returns, the categories stand
    in the order in which they first occur in the records, each once and with
    the number of its occurrences; no category is empty or contains a comma,
    and no count is below one. *)
Theorem category_tally_in_first_occurrence_order files t :
  tally_files empty_tally files = Ok t ->
  categories t =
    map (fun tok => (tok, token_count tok files))
      (first_occurrences (flat_map category_tokens files))
  /\ NoDup (first_occurrences (flat_map category_tokens files))
  /\ forall k v, In (k, v) (categories t) ->
       k <> "" /\ contains "," k = false /\ 1 <= v.
Proof.
  intros H. pose proof (tally_files_categories files t H) as Hc.
  destruct (tally_files_Ok files empty_tally t 0 0 0 eq_refl H) as (_ & Hf & _).
  simpl in Hf.
  assert (Hnd : NoDup (map fst (categories t))).
  { rewrite Hf. apply fold_count_category_NoDup. constructor. }
  split; [exact Hc|]. split.
  - rewrite Hc, map_map in Hnd. simpl in Hnd. now rewrite map_id in Hnd.
  - intros k v Hin. rewrite Hc in Hin. apply in_map_iff in Hin.
    destruct Hin as (tok & E & Htok). injection E as -> <-.
    apply (proj1 (first_occurrences_In _ _)) in Htok.
    split; [exact (flat_tokens_nonempty files _ Htok)|]. split.
    + apply in_flat_map in Htok. destruct Htok as (f & _ & Hf').
      eapply category_tokens_no_comma; eauto.
    + unfold token_count.
      apply (count_occ_In string_dec) in Htok. lia.
Qed.

(** X5: on readable records the aggregator returns the report that the
    counts of the records determine: the heading lines with the number of
    records, one line for each category in the order of first occurrence
    with the number of its occurrences, and the lines of HIGH, MEDIUM and LOW
    with the numbers of records in these buckets. *)
Theorem report_is_expected_report now files :
  forallb readable files = true ->
  _generate_markdown_report now files = Ok (expected_report now files).
Proof.
  intros Hr.
  apply (tally_files_readable _ empty_tally 0 0 0 eq_refl) in Hr.
  destruct Hr as [t Ht].
  unfold _generate_markdown_report. rewrite Ht. cbn [bind].
  rewrite (tally_files_categories files t Ht).
  destruct (tally_files_Ok files empty_tally t 0 0 0 eq_refl Ht) as (Hl & _ & _).
  simpl in Hl. rewrite Hl. unfold expected_report.
  rewrite map_map. reflexivity.
Qed.

(** ** Confidences that [int] rejects *)

Lemma lstrip_chars s :
  all_chars numeric_char (lstrip s) = true -> all_chars numeric_char s = true.
Proof.
  induction s as [|c s IH]; simpl; auto.
  destruct (is_space c) eqn:E; auto.
  intros H. unfold numeric_char at 1. rewrite E. simpl. auto.
Qed.

Lemma all_space_chars s :
  all_space s = true -> all_chars numeric_char s = true.
Proof.
  induction s as [|c s IH]; simpl; auto.
  intros H. apply andb_true_iff in H. destruct H as [Hc Hs].
  unfold numeric_char at 1. rewrite Hc. simpl. auto.
Qed.

Lemma digit_val_is_digit c d : digit_val c = Some d -> is_digit c = true.
Proof.
  unfold digit_val, is_digit.
  destruct ((48 <=? N_of_ascii c)%N && (N_of_ascii c <=? 57)%N); congruence.
Qed.

Lemma scan_digits_chars s : forall p acc n a d p' rest,
  scan_digits p acc n s = Some (a, d, p', rest) ->
  all_chars numeric_char rest = true ->
  all_chars numeric_char s = true.
Proof.
  induction s as [|c s IH]; intros p acc n a d p' rest H Hrest; simpl in *.
  - reflexivity.
  - destruct (Ascii.eqb c "_") eqn:Eu.
    + unfold numeric_char at 1. rewrite Eu, !orb_true_r. simpl.
      destruct p; [discriminate H|]. eapply IH; eauto.
    + destruct (digit_val c) as [k|] eqn:Ed.
      * unfold numeric_char at 1.
        rewrite (digit_val_is_digit c k Ed), !orb_true_r. simpl.
        eapply IH; eauto.
      * injection H as _ _ _ <-. exact Hrest.
Qed.

(** A text that [int] accepts is made of white space, digits, signs and
    underscores. *)
Lemma int_of_str_chars s z :
  int_of_str s = Ok z -> all_chars numeric_char s = true.
Proof.
  unfold int_of_str. intros H. apply lstrip_chars.
  destruct (starts_with "_"
              (if starts_with "+" (lstrip s) || starts_with "-" (lstrip s)
               then tail (lstrip s) else lstrip s)); [discriminate H|].
  destruct (scan_digits false 0 0
              (if starts_with "+" (lstrip s) || starts_with "-" (lstrip s)
               then tail (lstrip s) else lstrip s))
    as [[[[acc digits] prev] rest]|] eqn:Es; [|discriminate H].
  destruct prev; [discriminate H|].
  destruct ((640 <? digits)%nat && (0 <? int_max_str_digits)%nat
            && (int_max_str_digits <? digits)%nat); [discriminate H|].
  destruct (digits =? 0)%nat; [discriminate H|].
  destruct (all_space rest) eqn:Er; [|discriminate H].
  pose proof (scan_digits_chars _ _ _ _ _ _ _ _ Es (all_space_chars _ Er)) as Hs2.
  destruct (lstrip s) as [|c s1]; [reflexivity|].
  cbn [starts_with tail] in Hs2. simpl.
  destruct (Ascii.eqb c "+") eqn:Ep; [|destruct (Ascii.eqb c "-") eqn:Em].
  - unfold numeric_char at 1. rewrite Ep, !orb_true_r. exact Hs2.
  - unfold numeric_char at 1. rewrite Em, !orb_true_r. exact Hs2.
  - exact Hs2.
Qed.

Lemma int_of_str_raises_ValueError s e :
  int_of_str s = Raise e -> exc_cls e = ValueError.
Proof.
  unfold int_of_str.
  repeat match goal with
         | |- context [if ?b then _ else _] => destruct b
         | |- context [match ?x with Some _ => _ | None => _ end] => destruct x
         | |- context [match ?x with (_, _) => _ end] => destruct x
         end;
    intros H; try discriminate H; injection H as <-; reflexivity.
Qed.

(** X6: a record of the specification whose [overall_confidence] holds a
    character that is neither white space, a digit, a sign nor an underscore
    (a decimal point, a percent sign, a letter) makes the aggregator raise a
    [ValueError], whatever the records after it, when the records before it
    are read. *)
Theorem report_raises_on_non_numeric_confidence now before f after s :
  Forall (fun f => wf_record f = true /\ confidence_parses f = true) before ->
  wf_record f = true ->
  confidence_text f = Some s ->
  all_chars numeric_char s = false ->
  exists e,
    _generate_markdown_report now (before ++ f :: after)%list = Raise e
    /\ exc_cls e = ValueError.
Proof.
  intros Hall Hwf Ht Hs.
  destruct (int_of_str s) as [z|e] eqn:E.
  - apply int_of_str_chars in E. congruence.
  - exists e. split.
    + eapply report_raises_on_first_unparseable; eauto.
    + eapply int_of_str_raises_ValueError; eauto.
Qed.

(** ** The queries *)

Lemma split_not_nil sep s : split sep s <> [].
Proof.
  destruct s as [|c s]; simpl; [discriminate|].
  destruct (Ascii.eqb c sep); [discriminate|].
  destruct (split sep s); discriminate.
Qed.

Lemma list_append_not_nil {A} (l : list A) x : list_append l x <> [].
Proof. unfold list_append. destruct l; discriminate. Qed.

Lemma join_list_append sep l x :
  l <> [] -> join sep (list_append l x) = join sep l ++ sep ++ x.
Proof.
  intros Hl. unfold list_append. rewrite join_app by (auto; discriminate).
  reflexivity.
Qed.

(** X7: in a configuration that [Config] has read from the environment the
    list of MIME types is never empty (it is the list of the empty type when
    [SUPPORTED_MIME_TYPES] is not set), so [list_documents] always has a
    query, and its query without folder and with processed files included is
    the filter on these types. *)
Theorem configured_query_filters_mime_types getenv config :
  Config_init getenv = Ok config ->
  supported_mime_types config <> []
  /\ (getenv "SUPPORTED_MIME_TYPES" = None -> supported_mime_types config = [""])
  /\ (forall folder_id include_processed,
        exists query,
          documents_query config folder_id include_processed = Some query)
  /\ documents_query config None true =
     Some ("(" ++ join " or " (map mime_clause (supported_mime_types config))
           ++ ")").
Proof.
  unfold Config_init. intros H.
  destruct (int_of_str _) as [days|]; [|discriminate H]. simpl in H.
  destruct (int_of_str _) as [per_page|]; [|discriminate H]. simpl in H.
  injection H as <-. cbn [supported_mime_types].
  pose proof (split_not_nil ","
                match getenv "SUPPORTED_MIME_TYPES" with
                | Some v => v
                | None => ""
                end) as Hne.
  split; [exact Hne|]. split; [intros ->; reflexivity|].
  unfold documents_query. cbn [supported_mime_types].
  destruct (split "," _) as [|mime mimes] eqn:Es; [contradiction|].
  split; [|reflexivity].
  intros folder_id include_processed.
  destruct include_processed; cbn [negb].
  - destruct (list_append _ _) eqn:E; [|eauto].
    exfalso. eapply list_append_not_nil; eauto.
  - destruct (list_append (list_append _ _) _) eqn:E; [|eauto].
    exfalso. eapply list_append_not_nil; eauto.
Qed.

(** X8: leaving processed files out only adds a clause to the query of
    [list_documents]: the query without them is the query with them, followed
    by [and not] and the clause of the classified files, or that negated
    clause alone when there is no other filter. *)
Theorem excluding_processed_appends_clause config folder_id :
  documents_query config folder_id false =
  Some match documents_query config folder_id true with
       | Some query => query ++ " and " ++ "not " ++ classified_clause
       | None => "not " ++ classified_clause
       end.
Proof.
  unfold documents_query. cbn [negb].
  set (parts :=
    match supported_mime_types config with
    | [] =>
        match folder_id with
        | Some id => if truthy id then list_append [] ("'" ++ id ++ "' in parents") else []
        | None => []
        end
    | _ :: _ =>
        list_append
          match folder_id with
          | Some id => if truthy id then list_append [] ("'" ++ id ++ "' in parents") else []
          | None => []
          end
          ("(" ++ join " or " (map mime_clause (supported_mime_types config)) ++ ")")
    end).
  destruct (list_append parts ("not " ++ classified_clause)) eqn:E.
  { exfalso. eapply list_append_not_nil; eauto. }
  rewrite <- E. f_equal. destruct parts as [|p parts'] eqn:Ep.
  - reflexivity.
  - rewrite join_list_append by discriminate. reflexivity.
Qed.

(** ** The requests *)

Section Requests.
Variable config : Config.
Variable drive : list request -> request -> py response.
Variable isoformat_now : nat -> string.

Ltac step :=
  cbv [serve io_map list_documents get_status get_report get_drive_service
       try_except io_bind io_lift io_ret io_raise execute now min_page_size
       sent];
  cbn [fst snd calls clock_reads].

Ltac answer :=
  match goal with
  | |- context [drive ?h ?r] =>
      destruct (drive h r) eqn:?; cbn [fst snd calls clock_reads]
  end.

Ltac log := rewrite <- ?app_assoc, ?skipn_length_app.

Lemma skipn_all_calls (w : world) : skipn (length (calls w)) (calls w) = [].
Proof.
  rewrite <- (app_nil_r (calls w)) at 2. apply skipn_length_app.
Qed.

(** The searches of a request on [/documents]. *)
Lemma documents_sent token folder_id page_token page_size include_processed w :
  sent config token drive isoformat_now
    (Documents folder_id page_token page_size include_processed) w =
  match token, page_size with
  | TokenValid, Some n =>
      [documents_request config folder_id page_token
         (if max_results_per_page config <? n
          then max_results_per_page config else n)
         include_processed]
  | _, _ => []
  end.
Proof.
  destruct token; step; try apply skipn_all_calls.
  destruct page_size as [n|]; cbn [fst snd calls clock_reads bind].
  - answer; log; reflexivity.
  - apply skipn_all_calls.
Qed.

(** The searches of a request on [/status]. *)
Lemma status_sent token w :
  sent config token drive isoformat_now Status w =
  match token with
  | TokenValid =>
      match drive (calls w) (total_request config) with
      | Ok _ => [total_request config; classified_request]
      | Raise _ => [total_request config]
      end
  | _ => []
  end.
Proof.
  destruct token; step; try apply skipn_all_calls.
  answer; [answer|]; log; reflexivity.
Qed.

(** The searches of a request on [/report]. *)
Lemma report_sent token format start_date end_date w :
  sent config token drive isoformat_now (Report format start_date end_date) w =
  match token with
  | TokenValid => [report_request start_date end_date]
  | _ => []
  end.
Proof.
  destruct token; step; try apply skipn_all_calls.
  answer; [|log; reflexivity].
  destruct (String.eqb format "markdown"); cbn;
    [destruct (_generate_markdown_report _ _); cbn|]; log; reflexivity.
Qed.

(** X9: the page size that [/documents] asks of the Drive client is the
    smaller of the requested size and the configured maximum, so it never
    exceeds either; the search carries the page token and the query of the
    request. *)
Theorem documents_page_size_is_capped
    token folder_id page_token page_size include_processed w r :
  In r (sent config token drive isoformat_now
          (Documents folder_id page_token page_size include_processed) w) ->
  exists n size,
    page_size = Some n
    /\ pageSize r = Some size
    /\ size <= n /\ size <= max_results_per_page config
    /\ (size = n \/ size = max_results_per_page config)
    /\ pageToken r = page_token
    /\ q r = documents_query config folder_id include_processed.
Proof.
  rewrite documents_sent. destruct token; try contradiction.
  destruct page_size as [n|]; [|contradiction].
  intros [<-|[]]. exists n. eexists. split; [reflexivity|].
  split; [reflexivity|]. cbn [pageToken q].
  destruct (max_results_per_page config <? n) eqn:E;
    [apply Z.ltb_lt in E|apply Z.ltb_ge in E]; repeat split; auto; lia.
Qed.

(** X10: a request sends at most one search on [/documents] and on
    [/report] and at most two on [/status], whatever the answers; and no
    search carries a page token other than the one of a request on
    [/documents]: the page token of an answer is never followed. *)
Theorem searches_are_never_continued token ep w :
  (length (sent config token drive isoformat_now ep w)
   <= match ep with Status => 2 | _ => 1 end)%nat
  /\ forall r,
       In r (sent config token drive isoformat_now ep w) ->
       pageToken r = match ep with
                     | Documents _ page_token _ _ => page_token
                     | _ => None
                     end.
Proof.
  destruct ep as [fid pt ps ip| |fmt sd ed].
  - rewrite documents_sent. split.
    + destruct token, ps; simpl; lia.
    + destruct token, ps; simpl; try tauto. intros r [<-|[]]. reflexivity.
  - rewrite status_sent. split.
    + destruct token; simpl; try lia. destruct (drive _ _); simpl; lia.
    + destruct token; simpl; try tauto.
      destruct (drive _ _); simpl; intros r [<-|H]; try reflexivity;
        try contradiction.
      destruct H as [<-|[]]. reflexivity.
  - rewrite report_sent. split.
    + destruct token; simpl; lia.
    + destruct token; simpl; try tauto. intros r [<-|[]]. reflexivity.
Qed.

(** X11: on [/status] the search for the classified files is sent only
    after the search for all files has answered: when that first search
    fails, it is the only one. *)
Theorem status_stops_at_first_failure w :
  sent config TokenValid drive isoformat_now Status w =
  match drive (calls w) (total_request config) with
  | Ok _ => [total_request config; classified_request]
  | Raise _ => [total_request config]
  end.
Proof. exact (status_sent TokenValid w). Qed.

(** X12: once the credentials are loaded, a request that does not return
    ends with an [HTTPException] of status 500: no other status and no
    unhandled exception leaves the three endpoint functions. *)
Theorem failures_are_http_500 ep w f :
  fst (serve config TokenValid drive isoformat_now ep w) = Raise f ->
  exists detail, f = HTTPException 500 detail.
Proof.
  destruct ep as [fid pt [n|] ip| |fmt sd ed]; step.
  - answer; intros H; [discriminate H|injection H as <-; eauto].
  - cbn [bind]. intros H. injection H as <-. eauto.
  - answer; [answer|]; intros H; try discriminate H; injection H as <-; eauto.
  - answer; [|intros H; injection H as <-; eauto].
    destruct (String.eqb fmt "markdown"); cbn;
      [destruct (_generate_markdown_report _ _); cbn|];
      intros H; try discriminate H; injection H as <-; eauto.
Qed.

(** X13: a list that [/documents] returns holds the files of the answer to
    its one search, their number as [total_count] (the size of the page, not
    of the folder) and the page token of the answer. *)
Theorem documents_lists_the_page
    token folder_id page_token page_size include_processed w d :
  fst (list_documents config token drive folder_id page_token page_size
         include_processed w) = Ok d ->
  exists r answer,
    sent config token drive isoformat_now
      (Documents folder_id page_token page_size include_processed) w = [r]
    /\ drive (calls w) r = Ok answer
    /\ documents d = or_empty (files answer)
    /\ next_page_token d = nextPageToken answer
    /\ total_count d = len (documents d)
    /\ 0 <= total_count d.
Proof.
  rewrite documents_sent.
  destruct token; step; try discriminate.
  destruct page_size as [n|]; cbn [bind fst]; [|discriminate].
  fold (documents_request config folder_id page_token
          (if max_results_per_page config <? n
           then max_results_per_page config else n) include_processed).
  answer; intros H; [|discriminate H]. injection H as <-.
  do 2 eexists. split; [reflexivity|]. split; [eassumption|].
  cbn. unfold len. repeat split. lia.
Qed.

(** X14: when the search of [/report] answers and the format is
    [markdown], the endpoint returns what the aggregator returns on the files
    of the answer: its report, generated at the first reading of the clock,
    with the second reading as [generated_at]; and when the aggregator raises
    [e] (a confidence that [int] rejects), the request ends with status 500
    and detail [str(e)]. *)
Theorem markdown_report_follows_aggregator start_date end_date w answer :
  drive (calls w) (report_request start_date end_date) = Ok answer ->
  match _generate_markdown_report (isoformat_now (clock_reads w))
          (or_empty (files answer)) with
  | Ok text =>
      fst (get_report TokenValid drive isoformat_now "markdown"
             start_date end_date w)
      = Ok {| report_content := text;
              generated_at := isoformat_now (S (clock_reads w));
              format := "markdown" |}
  | Raise e =>
      fst (get_report TokenValid drive isoformat_now "markdown"
             start_date end_date w)
      = Raise (HTTPException 500 (exc_str e))
  end.
Proof.
  intros H. step. rewrite H. cbn.
  destruct (_generate_markdown_report _ _); reflexivity.
Qed.


End Requests.

(** ** The characters of the JSON report *)

Lemma all_chars_append p a b :
  all_chars p (a ++ b) = all_chars p a && all_chars p b.
Proof.
  induction a as [|c a IH]; simpl; [reflexivity|].
  now rewrite IH, andb_assoc.
Qed.

Lemma escape_char_ascii c : all_chars ascii_char (escape_char c) = true.
Proof. destruct c as [[] [] [] [] [] [] [] []]; reflexivity. Qed.

Lemma json_string_ascii s : all_chars ascii_char (json_string s) = true.
Proof.
  unfold json_string. cbn [all_chars]. rewrite all_chars_append.
  change (ascii_char dquote) with true. cbn [andb all_chars].
  rewrite andb_true_r.
  induction s as [|c s IH]; [reflexivity|].
  cbn [json_escape]. now rewrite all_chars_append, escape_char_ascii, IH.
Qed.

Lemma str_of_int_ascii z : all_chars ascii_char (str_of_int z) = true.
Proof.
  assert (H : forall d, all_chars ascii_char (NilEmpty.string_of_uint d) = true).
  { induction d; simpl; auto. }
  destruct z as [|p|p].
  - reflexivity.
  - rewrite str_of_int_pos. apply H.
  - rewrite str_of_int_neg. simpl. apply H.
Qed.

Lemma newline_indent_ascii indent level :
  all_chars ascii_char (newline_indent indent level) = true.
Proof.
  unfold newline_indent. simpl.
  induction (indent * level)%nat; simpl; auto.
Qed.

Lemma join_ascii sep parts :
  all_chars ascii_char sep = true ->
  Forall (fun part => all_chars ascii_char part = true) parts ->
  all_chars ascii_char (join sep parts) = true.
Proof.
  intros Hsep Hall. induction Hall as [|p ps Hp Hps IH]; [reflexivity|].
  destruct ps as [|p' ps]; [exact Hp|].
  change (join sep (p :: p' :: ps)) with (p ++ sep ++ join sep (p' :: ps)).
  now rewrite !all_chars_append, Hp, Hsep, IH.
Qed.

Lemma json_encode_ascii indent n : forall v level,
  (weight v <= n)%nat ->
  all_chars ascii_char (json_encode indent level v) = true.
Proof.
  induction n as [|n IH]; intros v level Hn.
  { pose proof (weight_positive v). lia. }
  assert (Hsep : forall lvl, all_chars ascii_char (separator indent lvl) = true).
  { intros lvl. unfold separator. simpl. apply newline_indent_ascii. }
  destruct v as [|[]|z|s|l|d]; try reflexivity.
  - apply str_of_int_ascii.
  - apply json_string_ascii.
  - destruct l as [|x l]; [reflexivity|].
    rewrite encode_list, !all_chars_append, !newline_indent_ascii.
    cbn [weight] in Hn. fold (items_weight (x :: l)) in Hn.
    rewrite join_ascii; [reflexivity|apply Hsep|].
    apply Forall_forall. intros part Hpart. apply in_map_iff in Hpart.
    destruct Hpart as (y & <- & Hy). apply IH.
    pose proof (items_weight_In y _ Hy). lia.
  - destruct d as [|kv d]; [reflexivity|].
    rewrite encode_dict, !all_chars_append, !newline_indent_ascii.
    cbn [weight] in Hn. fold (members_weight (kv :: d)) in Hn.
    rewrite join_ascii; [reflexivity|apply Hsep|].
    apply Forall_forall. intros part Hpart. apply in_map_iff in Hpart.
    destruct Hpart as (y & <- & Hy). unfold encode_member.
    rewrite !all_chars_append, json_string_ascii. simpl. apply IH.
    pose proof (members_weight_In y _ Hy). lia.
Qed.

(** X16: the content of a report in a format other than [markdown] is made
    of line feeds and printable characters of ASCII only, whatever the
    characters of the names and properties of the files. *)
Theorem json_report_is_ascii
    (drive : list request -> request -> py response)
    (isoformat_now : nat -> string)
    (format : string) (start_date end_date : option string) (w : world)
    (report : ReportResponse) :
  format <> "markdown" ->
  fst (get_report TokenValid drive isoformat_now format start_date end_date w)
    = Ok report ->
  all_chars ascii_char (report_content report) = true.
Proof.
  intros Hf. apply String.eqb_neq in Hf.
  unfold get_report, get_drive_service, try_except, io_bind, io_ret, execute.
  cbn [calls]. destruct (drive _ _) as [answer|e]; cbn -[json_dumps];
    [|discriminate].
  rewrite Hf. cbn -[json_dumps]. intros H. injection H as <-.
  cbn [report_content]. unfold json_dumps.
  apply (json_encode_ascii 2 _ _ 0 (le_n _)).
Qed.

(** ** The counts of the status *)

(** X17: in a status that [/status] returns, the two counts are lengths of
    file lists and so are not negative, and the pending count lies between
    the negated classified count and the total. *)
Theorem status_counts_are_bounded
    (config : Config) (token : token_state)
    (drive : list request -> request -> py response)
    (isoformat_now : nat -> string) (w : world) (status : StatusResponse) :
  fst (get_status config token drive isoformat_now w) = Ok status ->
  0 <= total_documents status
  /\ 0 <= classified_count status
  /\ - classified_count status <= pending_count status
     <= total_documents status.
Proof.
  unfold get_status, get_drive_service, try_except, io_bind, io_ret, io_raise,
    execute, now.
  destruct token; cbn [fst]; try discriminate.
  cbn [calls]. destruct (drive _ _) as [a1|]; cbn [fst calls]; [|discriminate].
  destruct (drive _ _) as [a2|]; cbn [fst calls]; [|discriminate].
  intros H. injection H as <-. cbn. unfold len. lia.
Qed.

(** ** Settings that are not integers *)

(** X18: when [CACHE_DURATION_DAYS] or [MAX_RESULTS_PER_PAGE] is set to a
    text with a character that is neither white space, a digit, a sign nor an
    underscore, [Config] raises a [ValueError] and there is no
    configuration, whatever the other variables hold. *)
Theorem config_rejects_non_numeric_settings getenv name s :
  In name ["CACHE_DURATION_DAYS"; "MAX_RESULTS_PER_PAGE"] ->
  getenv name = Some s ->
  all_chars numeric_char s = false ->
  exists e, Config_init getenv = Raise e /\ exc_cls e = ValueError.
Proof.
  intros Hname Hs Hchars.
  assert (Hraise : exists e, int_of_str s = Raise e /\ exc_cls e = ValueError).
  { destruct (int_of_str s) as [z|e] eqn:E.
    - apply int_of_str_chars in E. congruence.
    - exists e. split; [reflexivity|].
      exact (int_of_str_raises_ValueError s e E). }
  destruct Hraise as [e [He Hcls]].
  unfold Config_init.
  destruct Hname as [<-|[<-|[]]]; rewrite Hs.
  - rewrite He. exists e. split; [reflexivity|exact Hcls].
  - remember (match getenv "CACHE_DURATION_DAYS" with
              | Some v => v
              | None => "7"
              end) as days_text.
    destruct (int_of_str days_text) as [days|e'] eqn:E; cbn.
    + rewrite He. exists e. split; [reflexivity|exact Hcls].
    + exists e'. split; [reflexivity|].
      exact (int_of_str_raises_ValueError _ e' E).
Qed.

(** ** Instances of the further properties *)

(** X2 at two batches of two records. *)
Lemma tallies_of_batches_add_witness :
  tally_files empty_tally batch_a = Ok tally_a
  /\ tally_files empty_tally batch_b = Ok tally_b
  /\ exists t,
       tally_files empty_tally (batch_a ++ batch_b)%list = Ok t
       /\ (forall level, In level ["HIGH"; "MEDIUM"; "LOW"] ->
             level_count t level
             = level_count tally_a level + level_count tally_b level)
       /\ (forall tok, dict_get (categories t) tok 0 =
                       dict_get (categories tally_a) tok 0
                       + dict_get (categories tally_b) tok 0).
Proof.
  split; [reflexivity|]. split; [reflexivity|].
  exact (tallies_of_batches_add batch_a batch_b tally_a tally_b
           eq_refl eq_refl).
Defined.

(** X3 at the sample records and the same records in reverse order. *)
Lemma tallies_ignore_record_order_witness :
  Permutation sample_files (rev sample_files)
  /\ tally_files empty_tally sample_files = Ok sample_tally
  /\ exists t',
       tally_files empty_tally (rev sample_files) = Ok t'
       /\ confidence_levels t' = confidence_levels sample_tally
       /\ forall tok, dict_lookup (categories t') tok
                      = dict_lookup (categories sample_tally) tok.
Proof.
  split; [apply Permutation_rev|]. split; [reflexivity|].
  exact (tallies_ignore_record_order sample_files (rev sample_files)
           sample_tally (Permutation_rev sample_files) eq_refl).
Defined.

(** X4 at the second batch, where [internal] occurs three times, before
    and after [public]. *)
Lemma category_tally_in_first_occurrence_order_witness :
  tally_files empty_tally batch_b = Ok tally_b
  /\ categories tally_b =
       map (fun tok => (tok, token_count tok batch_b))
         (first_occurrences (flat_map category_tokens batch_b))
  /\ NoDup (first_occurrences (flat_map category_tokens batch_b))
  /\ forall k v, In (k, v) (categories tally_b) ->
       k <> "" /\ contains "," k = false /\ 1 <= v.
Proof.
  split; [reflexivity|].
  exact (category_tally_in_first_occurrence_order batch_b tally_b eq_refl).
Defined.

(** X5 at the two batches in a row. *)
Lemma report_is_expected_report_witness :
  forallb readable (batch_a ++ batch_b) = true
  /\ _generate_markdown_report sample_now (batch_a ++ batch_b)%list
     = Ok (expected_report sample_now (batch_a ++ batch_b)%list).
Proof.
  split; [reflexivity|].
  exact (report_is_expected_report sample_now (batch_a ++ batch_b)%list
           eq_refl).
Defined.

(** X6 at a record of confidence [0.95] after a record that is read. *)
Lemma report_raises_on_non_numeric_confidence_witness :
  Forall (fun f => wf_record f = true /\ confidence_parses f = true) [doc1]
  /\ wf_record fraction_record = true
  /\ confidence_text fraction_record = Some "0.95"
  /\ all_chars numeric_char "0.95" = false
  /\ exists e,
       _generate_markdown_report sample_now
         ([doc1] ++ fraction_record :: [doc2])%list = Raise e
       /\ exc_cls e = ValueError.
Proof.
  assert (H : Forall (fun f => wf_record f = true /\ confidence_parses f = true)
                [doc1]) by (repeat constructor).
  split; [exact H|]. split; [reflexivity|]. split; [reflexivity|].
  split; [reflexivity|].
  exact (report_raises_on_non_numeric_confidence sample_now [doc1]
           fraction_record [doc2] "0.95" H eq_refl eq_refl eq_refl).
Defined.

(** X7 at the empty environment. *)
Lemma configured_query_filters_mime_types_witness :
  Config_init empty_environment = Ok default_config
  /\ supported_mime_types default_config <> []
  /\ (empty_environment "SUPPORTED_MIME_TYPES" = None ->
      supported_mime_types default_config = [""])
  /\ (forall folder_id include_processed,
        exists query,
          documents_query default_config folder_id include_processed
          = Some query)
  /\ documents_query default_config None true =
     Some ("(" ++ join " or "
                    (map mime_clause (supported_mime_types default_config))
           ++ ")").
Proof.
  split; [reflexivity|].
  exact (configured_query_filters_mime_types empty_environment default_config
           eq_refl).
Defined.

(** X9 at a request for 500 files under a maximum of 100. *)
Lemma documents_page_size_is_capped_witness :
  let r := documents_request sample_config (Some "folder") (Some "token") 100
             false in
  In r (sent sample_config TokenValid report_drive sample_clock
          (Documents (Some "folder") (Some "token") (Some 500) false)
          sample_world)
  /\ exists n size,
       Some 500 = Some n
       /\ pageSize r = Some size
       /\ size <= n /\ size <= max_results_per_page sample_config
       /\ (size = n \/ size = max_results_per_page sample_config)
       /\ pageToken r = Some "token"
       /\ q r = documents_query sample_config (Some "folder") false.
Proof.
  cbv zeta.
  assert (H : In (documents_request sample_config (Some "folder")
                    (Some "token") 100 false)
                (sent sample_config TokenValid report_drive sample_clock
                   (Documents (Some "folder") (Some "token") (Some 500) false)
                   sample_world)) by (left; reflexivity).
  split; [exact H|].
  exact (documents_page_size_is_capped sample_config report_drive sample_clock
           TokenValid (Some "folder") (Some "token") (Some 500) false
           sample_world _ H).
Defined.

(** X12 at [/status] with a Drive client that fails. *)
Lemma failures_are_http_500_witness :
  fst (serve sample_config TokenValid failing_drive sample_clock Status
         sample_world) = Raise (HTTPException 500 "API Error")
  /\ exists detail, HTTPException 500 "API Error" = HTTPException 500 detail.
Proof.
  split; [reflexivity|].
  exact (failures_are_http_500 sample_config failing_drive sample_clock Status
           sample_world _ eq_refl).
Defined.

(** X13 at a search that answers with two files and a page token. *)
Lemma documents_lists_the_page_witness :
  let d := {| documents := [doc1; fraction_record];
              next_page_token := Some "next";
              total_count := 2 |} in
  fst (list_documents sample_config TokenValid fraction_drive None None
         (Some 50) false sample_world) = Ok d
  /\ exists r answer,
       sent sample_config TokenValid fraction_drive sample_clock
         (Documents None None (Some 50) false) sample_world = [r]
       /\ fraction_drive (calls sample_world) r = Ok answer
       /\ documents d = or_empty (files answer)
       /\ next_page_token d = nextPageToken answer
       /\ total_count d = len (documents d)
       /\ 0 <= total_count d.
Proof.
  cbv zeta. split; [reflexivity|].
  exact (documents_lists_the_page sample_config fraction_drive sample_clock
           TokenValid None None (Some 50) false sample_world _ eq_refl).
Defined.

(** X14 at a search that answers with a record of confidence [0.95]: the
    request ends with status 500. *)
Lemma markdown_report_follows_aggregator_witness :
  fraction_drive (calls sample_world) (report_request None None)
    = Ok {| files := Some [doc1; fraction_record];
            nextPageToken := Some "next" |}
  /\ fst (get_report TokenValid fraction_drive sample_clock "markdown"
            None None sample_world)
     = Raise (HTTPException 500
                "invalid literal for int() with base 10: '0.95'").
Proof.
  split; [reflexivity|].
  exact (markdown_report_follows_aggregator fraction_drive sample_clock
           None None sample_world _ eq_refl).
Defined.


(** X16 at the format [json] and the two records of the tests. *)
Lemma json_report_is_ascii_witness :
  "json" <> "markdown"
  /\ fst (get_report TokenValid report_drive sample_clock "json" None None
            sample_world)
     = Ok {| report_content := json_dumps 2 [doc1; doc2];
             generated_at := sample_now;
             format := "json" |}
  /\ all_chars ascii_char (json_dumps 2 [doc1; doc2]) = true.
Proof.
  assert (H : "json" <> "markdown") by discriminate.
  split; [exact H|]. split; [reflexivity|].
  exact (json_report_is_ascii report_drive sample_clock "json" None None
           sample_world _ H eq_refl).
Defined.

(** X17 at the answers of [test_get_status]. *)
Lemma status_counts_are_bounded_witness :
  let status := {| total_documents := 3;
                   classified_count := 2;
                   pending_count := 1;
                   last_update := sample_now |} in
  fst (get_status sample_config TokenValid status_drive sample_clock
         sample_world) = Ok status
  /\ 0 <= total_documents status
  /\ 0 <= classified_count status
  /\ - classified_count status <= pending_count status
     <= total_documents status.
Proof.
  cbv zeta. split; [reflexivity|].
  exact (status_counts_are_bounded sample_config TokenValid status_drive
           sample_clock sample_world _ eq_refl).
Defined.

(** X18 at a page maximum of [50.5]. *)
Lemma config_rejects_non_numeric_settings_witness :
  In "MAX_RESULTS_PER_PAGE" ["CACHE_DURATION_DAYS"; "MAX_RESULTS_PER_PAGE"]
  /\ fraction_environment "MAX_RESULTS_PER_PAGE" = Some "50.5"
  /\ all_chars numeric_char "50.5" = false
  /\ exists e,
       Config_init fraction_environment = Raise e /\ exc_cls e = ValueError.
Proof.
  assert (H : In "MAX_RESULTS_PER_PAGE"
                ["CACHE_DURATION_DAYS"; "MAX_RESULTS_PER_PAGE"])
    by (right; left; reflexivity).
  split; [exact H|]. split; [reflexivity|]. split; [reflexivity|].
  exact (config_rejects_non_numeric_settings fraction_environment
           "MAX_RESULTS_PER_PAGE" "50.5" H eq_refl eq_refl).
Defined.
